(** * DSA contest backend: judging engine and contest-result aggregation

    A shallow embedding of the judging pipeline of the backend:
    - [CodeRunner] (utils/codeRunner.js): [executeTestCase], [runCode];
    - the submission controller: [combineWithHarness], the scoring part of
      [submitSolution], [updateContestResult];
    - the ContestResult model: [calculateTotals], [updateProblemResult];
    - the per-problem [maxScore] computed by [joinContest].

    Conventions.
    - A JavaScript string is the list of its UTF-16 code units ([jsstr]).
    - A JavaScript number that holds a score, a count or a duration is an
      integer of [Z]; NaN, infinities and rounding beyond 2^53 are outside
      the model.
    - [new Date()] and [Date.now()] read a clock that is an explicit
      argument; a date is its number of milliseconds.
    - Child processes, the file system and the database are outside the
      program: what they answer is an explicit argument ([Execution],
      [Faults]) over which the theorems quantify. *)

From stdpp Require Import base numbers option list strings gmap pretty.

Local Open Scope Z_scope.

(** ** JavaScript strings *)

Module JsString.

Definition jsstr := list N.

(** An ASCII literal of the source. *)
Definition lit (s : string) : jsstr :=
  map Ascii.N_of_ascii (String.list_ascii_of_string s).

(** The line feed of a template literal that spans lines. *)
Definition LF : jsstr := [10%N].

(** ECMAScript WhiteSpace and LineTerminator code points: what
    [String.prototype.trim] strips. *)
Definition isWhiteSpace (c : N) : bool :=
  ((9 <=? c) && (c <=? 13) || (c =? 32) || (c =? 160) || (c =? 5760)
   || (8192 <=? c) && (c <=? 8202) || (c =? 8232) || (c =? 8233)
   || (c =? 8239) || (c =? 8287) || (c =? 12288) || (c =? 65279))%N.

Fixpoint trimStart (s : jsstr) : jsstr :=
  match s with
  | c :: t => if isWhiteSpace c then trimStart t else s
  | [] => []
  end.

Definition trimEnd (s : jsstr) : jsstr := reverse (trimStart (reverse s)).

(** [s.trim()] *)
Definition trim (s : jsstr) : jsstr := trimEnd (trimStart s).

(** [a === b] on two strings. *)
Definition strictEq (a b : jsstr) : bool := bool_decide (a = b).

(** [!s]: only the empty string is falsy. *)
Definition falsy (s : jsstr) : bool :=
  match s with [] => true | _ => false end.

Definition isHighSurrogate (c : N) : bool := ((55296 <=? c) && (c <=? 56319))%N.
Definition isLowSurrogate (c : N) : bool := ((56320 <=? c) && (c <=? 57343))%N.

(** [Buffer.byteLength(s, 'utf8')]: a surrogate pair is one 4-byte
    sequence, a lone surrogate is written as U+FFFD (3 bytes). *)
Fixpoint byteLength (s : jsstr) : Z :=
  match s with
  | [] => 0
  | c :: t =>
      if (c <? 128)%N then 1 + byteLength t
      else if (c <? 2048)%N then 2 + byteLength t
      else if isHighSurrogate c then
        match t with
        | d :: t' => if isLowSurrogate d then 4 + byteLength t'
                     else 3 + byteLength t
        | [] => 3
        end
      else 3 + byteLength t
  end.

(** [`${n}`] for an exit code: a number, or [null] when the process was
    killed by a signal (the spawn timeout). *)
Definition showCode (code : option Z) : jsstr :=
  match code with
  | Some n => lit (pretty n)
  | None => lit "null"
  end.

End JsString.

Import JsString.

(** ** Data model (models/Problem.js, models/Contest.js, models/ContestResult.js) *)

Definition ObjectId := N.
Definition Date := Z.

(** Every status literal that the repository writes or declares. *)
Inductive Status :=
| not_attempted | attempted | partial | accepted
| pending | running | wrong_answer | time_limit_exceeded
| runtime_error | compilation_error.

Global Instance Status_eq_dec : EqDecision Status.
Proof. solve_decision. Defined.

Record TestCase := {
  tc_id : ObjectId;
  tc_input : jsstr;
  tc_expectedOutput : jsstr;
  tc_isHidden : bool;
  tc_points : Z
}.

(** [harshnessCode] is Mixed: a string, or an object from language to string. *)
Inductive Harness :=
| HarnessString (s : jsstr)
| HarnessObject (m : gmap jsstr jsstr).

Record Problem := {
  p_id : ObjectId;
  p_testCases : list TestCase;
  p_harshnessCode : option Harness;   (* None: undefined or null *)
  p_harnessCode : option Harness;
  p_timeLimit : Z;
  p_memoryLimit : Z;
  p_points : Z
}.

Record ContestProblem := {
  cp_problemId : ObjectId;
  cp_order : Z;
  cp_points : Z
}.

Record Contest := {
  c_id : ObjectId;
  c_problems : list ContestProblem;
  c_startTime : Date;
  c_endTime : Date
}.

Record ProblemResult := {
  pr_problemId : ObjectId;
  pr_score : Z;
  pr_maxScore : Z;
  pr_timeSpent : Z;
  pr_submissionCount : Z;
  pr_firstAcceptedAt : option Date;   (* None: undefined or null *)
  pr_status : Status
}.

Record ContestResult := {
  cr_userId : ObjectId;
  cr_contestId : ObjectId;
  cr_totalScore : Z;
  cr_totalTime : Z;
  cr_problemResults : list ProblemResult;
  cr_penalties : Z;
  cr_startedAt : Date;
  cr_completedAt : option Date;
  cr_isCompleted : bool
}.

(** ** The ContestResult model's methods *)

Module ContestResultModel.

Definition with_problemResults (this : ContestResult) (prs : list ProblemResult)
  : ContestResult :=
  {| cr_userId := cr_userId this; cr_contestId := cr_contestId this;
     cr_totalScore := cr_totalScore this; cr_totalTime := cr_totalTime this;
     cr_problemResults := prs;
     cr_penalties := cr_penalties this; cr_startedAt := cr_startedAt this;
     cr_completedAt := cr_completedAt this;
     cr_isCompleted := cr_isCompleted this |}.

(** [problemResults.reduce((sum, result) => sum + result.score, 0)] and the
    same for [timeSpent]. *)
Definition calculateTotals (this : ContestResult) : ContestResult :=
  {| cr_userId := cr_userId this; cr_contestId := cr_contestId this;
     cr_totalScore :=
       foldl (fun sum result => sum + pr_score result) 0 (cr_problemResults this);
     cr_totalTime :=
       foldl (fun sum result => sum + pr_timeSpent result) 0 (cr_problemResults this);
     cr_problemResults := cr_problemResults this;
     cr_penalties := cr_penalties this; cr_startedAt := cr_startedAt this;
     cr_completedAt := cr_completedAt this;
     cr_isCompleted := cr_isCompleted this |}.

(** [problemResults.find(p => p.problemId.toString() === problemId.toString())]:
    the first entry of that problem, with its index. *)
Definition findProblemResult (this : ContestResult) (problemId : ObjectId)
  : option (nat * ProblemResult) :=
  list_find (fun p => pr_problemId p = problemId) (cr_problemResults this).

(** The then-branch: the entry found is mutated in place. *)
Definition mergeInto (now : Date) (problemResult : ProblemResult)
    (score timeSpent : Z) (status : Status) (isFirstAccept : bool)
  : ProblemResult :=
  {| pr_problemId := pr_problemId problemResult;
     pr_score := Z.max (pr_score problemResult) score;
     pr_maxScore := pr_maxScore problemResult;
     pr_timeSpent := pr_timeSpent problemResult + timeSpent;
     pr_submissionCount := pr_submissionCount problemResult + 1;
     pr_firstAcceptedAt :=
       if isFirstAccept && negb (bool_decide (is_Some (pr_firstAcceptedAt problemResult)))
       then Some now
       else pr_firstAcceptedAt problemResult;
     pr_status := status |}.

(** The else-branch: the entry that is pushed. *)
Definition synthesized (now : Date) (problemId : ObjectId)
    (score timeSpent : Z) (status : Status) (isFirstAccept : bool)
  : ProblemResult :=
  {| pr_problemId := problemId;
     pr_score := score;
     pr_maxScore := 100;
     pr_timeSpent := timeSpent;
     pr_submissionCount := 1;
     pr_firstAcceptedAt := if isFirstAccept then Some now else None;
     pr_status := status |}.

Definition updateProblemResult (now : Date) (this : ContestResult)
    (problemId : ObjectId) (score timeSpent : Z) (status : Status)
    (isFirstAccept : bool) : ContestResult :=
  calculateTotals
    match findProblemResult this problemId with
    | Some (i, problemResult) =>
        with_problemResults this
          (<[i := mergeInto now problemResult score timeSpent status isFirstAccept]>
             (cr_problemResults this))
    | None =>
        with_problemResults this
          (cr_problemResults this ++
             [synthesized now problemId score timeSpent status isFirstAccept])
    end.

End ContestResultModel.

(** ** Exceptions *)

(** A computation that returns or throws an [Error] with a message. *)
Inductive Result (A : Type) :=
| Ok (a : A)
| Throw (message : jsstr).
Arguments Ok {A} a.
Arguments Throw {A} message.

(** ** utils/codeRunner.js *)

Module CodeRunner.

(** How a spawned process settles its promise: its 'close' event with
    an exit code ([None] is [null], a process killed by a signal such as
    the one of the spawn timeout), or its 'error' event. *)
Inductive ProcessEnd :=
| Closed (code : option Z)
| Errored (message : jsstr).

Record Process := {
  proc_end : ProcessEnd;
  proc_stdout : jsstr;
  proc_stderr : jsstr
}.

(** What the outside world does during one call of [executeTestCase]:
    whether [fs.writeFileSync] throws, how the compiler ends (C++ and
    Java only), how the program runs, and the wall-clock time between
    the two readings of [Date.now()]. Removing the temporary file in the
    [finally] block is taken to succeed. *)
Record Execution := {
  ex_write : option jsstr;
  ex_compile : ProcessEnd;
  ex_run : Process;
  ex_elapsed : Z
}.

(** The object literals built by [executeTestCase] and by the catch
    block of [runCode]. *)
Record TestResult := {
  tr_passed : bool;
  tr_executionTime : Z;
  tr_memoryUsed : Z;
  tr_output : jsstr;
  tr_error : jsstr
}.

(** The value read from a property of such an object. *)
Inductive JsValue :=
| JsUndefined
| JsBoolean (b : bool)
| JsNumber (n : Z)
| JsString (s : jsstr)
| JsObjectId (id : ObjectId).

(** [r[key]]: the object has the five own properties of the literal. *)
Definition getProperty (r : TestResult) (key : string) : JsValue :=
  if String.eqb key "passed" then JsBoolean (tr_passed r)
  else if String.eqb key "executionTime" then JsNumber (tr_executionTime r)
  else if String.eqb key "memoryUsed" then JsNumber (tr_memoryUsed r)
  else if String.eqb key "output" then JsString (tr_output r)
  else if String.eqb key "error" then JsString (tr_error r)
  else JsUndefined.

Definition getFileExtension (language : jsstr) : jsstr :=
  if strictEq language (lit "python") then lit "py"
  else if strictEq language (lit "javascript") then lit "js"
  else if strictEq language (lit "cpp") then lit "cpp"
  else if strictEq language (lit "java") then lit "java"
  else lit "txt".

(** [Math.ceil(Buffer.byteLength(output, 'utf8') / 1024)] *)
Definition estimateMemoryUsage (output : jsstr) : Z :=
  (byteLength output + 1023) / 1024.

(** The 'close' and 'error' handlers of the run process, the same in the
    four adapters: the promise resolves to [{ output, error }]. *)
Definition settleRun (p : Process) : Result (jsstr * jsstr) :=
  match proc_end p with
  | Closed (Some 0) => Ok (proc_stdout p, proc_stderr p)
  | Closed code =>
      Throw (lit "Process exited with code " ++ showCode code
             ++ lit ": " ++ proc_stderr p)
  | Errored message => Throw message
  end.

Definition runPython (w : Execution) : Result (jsstr * jsstr) :=
  settleRun (ex_run w).

Definition runJavaScript (w : Execution) : Result (jsstr * jsstr) :=
  settleRun (ex_run w).

(** Compile first; the program is spawned only after exit code 0. *)
Definition runCpp (w : Execution) : Result (jsstr * jsstr) :=
  match ex_compile w with
  | Closed (Some 0) => settleRun (ex_run w)
  | Closed _ => Throw (lit "Compilation failed")
  | Errored message => Throw message
  end.

Definition runJava (w : Execution) : Result (jsstr * jsstr) :=
  match ex_compile w with
  | Closed (Some 0) => settleRun (ex_run w)
  | Closed _ => Throw (lit "Compilation failed")
  | Errored message => Throw message
  end.

Definition executeTestCase (code language : jsstr) (testCase : TestCase)
    (w : Execution) : Result TestResult :=
  match ex_write w with
  | Some message => Throw message
  | None =>
      let result :=
        if strictEq language (lit "python") then runPython w
        else if strictEq language (lit "javascript") then runJavaScript w
        else if strictEq language (lit "cpp") then runCpp w
        else if strictEq language (lit "java") then runJava w
        else Throw (lit "Unsupported language: " ++ language) in
      match result with
      | Throw message => Throw message
      | Ok (output, error) =>
          Ok {| tr_passed := strictEq (trim output) (trim (tc_expectedOutput testCase));
                tr_executionTime := ex_elapsed w;
                tr_memoryUsed := estimateMemoryUsage output;
                tr_output := output;
                tr_error := error |}
      end
  end.

(** One turn of the loop of [runCode]: the result that is pushed. *)
Definition runOne (code language : jsstr) (testCase : TestCase)
    (w : Execution) : TestResult :=
  match executeTestCase code language testCase w with
  | Ok result => result
  | Throw message =>
      {| tr_passed := false; tr_executionTime := 0; tr_memoryUsed := 0;
         tr_output := []; tr_error := message |}
  end.

(** [env i] is what the world does during the i-th turn of the loop. *)
Definition runCode (env : nat -> Execution) (code language : jsstr)
    (testCases : list TestCase) : list TestResult :=
  imap (fun i testCase => runOne code language testCase (env i)) testCases.

End CodeRunner.

(** ** The database *)

(** The awaited database calls, by call site. *)
Inductive DbCall :=
| submit_Contest_findById         (* submitSolution, the contest *)
| submit_Problem_findById_points  (* submitSolution, pointsForProblem *)
| submit_Problem_findById         (* submitSolution, the problem *)
| update_ContestResult_findOne
| update_Contest_findById
| update_Problem_find
| update_ContestResult_create
| update_ContestResult_save.

(** Which calls reject, with which message, when they are reached. *)
Definition Faults := DbCall -> option jsstr.

Definition noFaults : Faults := fun _ => None.

(** The persisted ContestResult collection, one document for a (user,
    contest) pair (the unique index), and what was written to the console. *)
Record State := {
  st_contestResults : gmap (ObjectId * ObjectId) ContestResult;
  st_console : list jsstr
}.

(** State and exceptions: the state reached is kept when a call throws. *)
Definition M (A : Type) := State -> Result A * State.

Definition ret {A} (a : A) : M A := fun st => (Ok a, st).

Definition bind {A B} (m : M A) (k : A -> M B) : M B :=
  fun st =>
    match m st with
    | (Ok a, st') => k a st'
    | (Throw message, st') => (Throw message, st')
    end.

Definition throw {A} (message : jsstr) : M A := fun st => (Throw message, st).

(** [try { body } catch (error) { handler(error) }] *)
Definition tryCatch {A} (body : M A) (handler : jsstr -> M A) : M A :=
  fun st =>
    match body st with
    | (Ok a, st') => (Ok a, st')
    | (Throw message, st') => handler message st'
    end.

Notation "'let*' x ':=' m 'in' k" := (bind m (fun x => k))
  (at level 10, x binder, m at level 200, k at level 200).

(** An awaited read that may reject. *)
Definition await {A} (faults : Faults) (call : DbCall) (answer : A) : M A :=
  match faults call with
  | Some message => throw message
  | None => ret answer
  end.

Definition console_error (label : jsstr) (message : jsstr) : M unit :=
  fun st =>
    (Ok tt, {| st_contestResults := st_contestResults st;
               st_console := st_console st ++ [label ++ lit " " ++ message] |}).

Definition ContestResult_findOne (faults : Faults) (userId contestId : ObjectId)
  : M (option ContestResult) :=
  fun st =>
    await faults update_ContestResult_findOne
      (st_contestResults st !! (userId, contestId)) st.

(** [ContestResult.create(doc)] and [doc.save()] write the document. *)
Definition persist (call : DbCall) (faults : Faults) (doc : ContestResult)
  : M ContestResult :=
  fun st =>
    match faults call with
    | Some message => (Throw message, st)
    | None =>
        (Ok doc,
         {| st_contestResults :=
              <[(cr_userId doc, cr_contestId doc) := doc]> (st_contestResults st);
            st_console := st_console st |})
    end.

Definition ContestResult_create := persist update_ContestResult_create.
Definition ContestResult_save := persist update_ContestResult_save.

(** ** The contest controller: the problem results of a new ContestResult *)

Module ContestController.

(** The body of the [map] callback of [joinContest]; [full] is
    [probMap.get(String(p.problemId))]. *)
Definition initialProblemResult (full : option Problem) (p : ContestProblem)
  : ProblemResult :=
  let maxScore := cp_points p in
  let maxScore :=
    match full with
    | Some full =>
        if (0 <? length (p_testCases full))%nat
        then foldl (fun s tc => s + tc_points tc) 0 (p_testCases full)
        else p_points full
    | None => maxScore
    end in
  {| pr_problemId := cp_problemId p;
     pr_score := 0;
     pr_maxScore := maxScore;
     pr_timeSpent := 0;
     pr_submissionCount := 0;
     pr_firstAcceptedAt := None;
     pr_status := not_attempted |}.

(** The document given to [ContestResult.create]. [problems !! id] is the
    document of that id among those that [Problem.find] returned. *)
Definition newContestResult (problems : gmap ObjectId Problem) (now : Date)
    (userId contestId : ObjectId) (allProblems : list ContestProblem)
  : ContestResult :=
  {| cr_userId := userId; cr_contestId := contestId;
     cr_totalScore := 0; cr_totalTime := 0;
     cr_problemResults :=
       map (fun p => initialProblemResult (problems !! cp_problemId p) p) allProblems;
     cr_penalties := 0; cr_startedAt := now;
     cr_completedAt := None; cr_isCompleted := false |}.

End ContestController.

(** ** The submission controller *)

Module SubmissionController.

Import CodeRunner ContestResultModel.

(** [problem?.harshnessCode ?? problem?.harnessCode ?? ''] *)
Definition rawHarness (problem : Problem) : Harness :=
  match p_harshnessCode problem with
  | Some raw => raw
  | None =>
      match p_harnessCode problem with
      | Some raw => raw
      | None => HarnessString []
      end
  end.

(** [String(raw[language] || '').trim()] for an object,
    [String(raw || '').trim()] for a string. *)
Definition resolveHarness (language : jsstr) (problem : Problem) : jsstr :=
  match rawHarness problem with
  | HarnessObject raw => trim (default [] (raw !! language))
  | HarnessString raw => trim raw
  end.

Definition combineWithHarness (userCode language : jsstr) (problem : Problem)
  : jsstr :=
  let harness := resolveHarness language problem in
  if falsy harness then userCode
  else if strictEq language (lit "javascript") then
    userCode ++ LF ++ lit "// --- HARNESS START ---" ++ LF
      ++ harness ++ LF ++ lit "// --- HARNESS END ---"
  else if strictEq language (lit "python") then
    userCode ++ LF ++ lit "# --- HARNESS START ---" ++ LF
      ++ harness ++ LF ++ lit "# --- HARNESS END ---"
  else if strictEq language (lit "cpp") then
    userCode ++ LF ++ lit "// --- HARNESS START ---" ++ LF
      ++ harness ++ LF ++ lit "// --- HARNESS END ---"
  else if strictEq language (lit "java") then
    userCode ++ LF ++ lit "// --- HARNESS START ---" ++ LF
      ++ harness ++ LF ++ lit "// --- HARNESS END ---"
  else userCode.

(** [l.reduce((acc, x, idx) => f(acc, x, idx), acc)], from index [idx]. *)
Fixpoint reduceFrom {A B} (f : B -> A -> nat -> B) (acc : B) (idx : nat)
    (l : list A) : B :=
  match l with
  | [] => acc
  | x :: t => reduceFrom f (f acc x idx) (S idx) t
  end.

(** [problem.testCases.map(tc => Number(tc.points) || 0)] *)
Definition perTestPoints (problem : Problem) : list Z :=
  map tc_points (p_testCases problem).

Definition maxScoreOf (problem : Problem) : Z :=
  foldl (fun s p => s + p) 0 (perTestPoints problem).

Definition scoreOf (problem : Problem) (testResults : list TestResult) : Z :=
  reduceFrom
    (fun sum r idx =>
       let pts := default 0 (perTestPoints problem !! idx) in
       sum + (if tr_passed r then pts else 0))
    0 0%nat testResults.

(** [score === maxScore ? 'accepted' : (score > 0 ? 'partial' : 'attempted')] *)
Definition statusOf (score maxScore : Z) : Status :=
  if bool_decide (score = maxScore) then accepted
  else if 0 <? score then partial else attempted.

Definition totalExecutionTimeOf (testResults : list TestResult) : Z :=
  foldl (fun s r => s + tr_executionTime r) 0 testResults.

(** The object given to [updateContestResult]. *)
Record SubmissionSummary := {
  sub_score : Z;
  sub_totalExecutionTime : Z;
  sub_status : Status
}.

Section Update.

Variable faults : Faults.
Variable contests : gmap ObjectId Contest.
Variable problems : gmap ObjectId Problem.
Variable now : Date.

(** The body of the [try] block of [updateContestResult]. *)
Definition updateContestResult_try (userId contestId problemId : ObjectId)
    (submission : SubmissionSummary) : M unit :=
  let* found := ContestResult_findOne faults userId contestId in
  let* contestResult :=
    match found with
    | Some contestResult => ret contestResult
    | None =>
        let* contest :=
          await faults update_Contest_findById (contests !! contestId) in
        let contestProblems :=
          match contest with Some c => c_problems c | None => [] end in
        let* probMap := await faults update_Problem_find problems in
        ContestResult_create faults
          (ContestController.newContestResult probMap now userId contestId
             contestProblems)
    end in
  let isFirstAccept := bool_decide (sub_status submission = accepted) in
  let status :=
    if bool_decide (sub_status submission = accepted) then accepted
    else if 0 <? sub_score submission then partial else attempted in
  let* _ :=
    ContestResult_save faults
      (updateProblemResult now contestResult problemId
         (sub_score submission) (sub_totalExecutionTime submission)
         status isFirstAccept) in
  ret tt.

Definition updateContestResult (userId contestId problemId : ObjectId)
    (submission : SubmissionSummary) : M unit :=
  tryCatch (updateContestResult_try userId contestId problemId submission)
    (fun message => console_error (lit "Update contest result error:") message).

End Update.

Record Request := {
  req_userId : ObjectId;      (* req.user.id *)
  req_contestId : ObjectId;
  req_problemId : ObjectId;
  req_code : jsstr;
  req_language : jsstr
}.

(** What [res.status(..).json(..)] sends. *)
Inductive Response :=
| Failure (httpStatus : Z) (message : jsstr) (error : option jsstr)
    (* success: false *)
| Graded (status : Status) (score maxScore : Z)
    (testResults : list TestResult) (totalExecutionTime : Z)
    (* 200, success: true, 'Solution submitted successfully' *)
| GradedWithErrors (maxScore : Z) (error : jsstr).
    (* 200, success: true, status 'runtime_error', score 0 *)

Section Submit.

Variable faults : Faults.
Variable env : nat -> Execution.
Variable contests : gmap ObjectId Contest.
Variable problems : gmap ObjectId Problem.
Variable now : Date.

(** The inner [try] block: run, score, update the contest result, answer. *)
Definition gradeAndRecord (req : Request) (problem : Problem) : M Response :=
  let combinedCode := combineWithHarness (req_code req) (req_language req) problem in
  let testResults :=
    runCode env combinedCode (req_language req) (p_testCases problem) in
  let maxScore := maxScoreOf problem in
  let score := scoreOf problem testResults in
  let* _ :=
    updateContestResult faults contests problems now
      (req_userId req) (req_contestId req) (req_problemId req)
      {| sub_score := score;
         sub_totalExecutionTime := totalExecutionTimeOf testResults;
         sub_status := statusOf score maxScore |} in
  ret (Graded (statusOf score maxScore) score maxScore testResults
         (totalExecutionTimeOf testResults)).

(** The outer [try] block of [submitSolution]. *)
Definition submitSolution_try (req : Request) : M Response :=
  let* contest :=
    await faults submit_Contest_findById (contests !! req_contestId req) in
  match contest with
  | None => ret (Failure 404 (lit "Contest not found") None)
  | Some contest =>
      if (now <? c_startTime contest) || (c_endTime contest <? now) then
        ret (Failure 400 (lit "Contest is not currently running") None)
      else
        let problemInContest :=
          snd <$> list_find (fun p => cp_problemId p = req_problemId req)
                    (c_problems contest) in
        let* pointsForProblem :=
          match problemInContest with
          | Some p => ret (cp_points p)
          | None =>
              let* found :=
                await faults submit_Problem_findById_points
                  (problems !! req_problemId req) in
              ret (match found with
                   | Some p => if p_points p =? 0 then 100 else p_points p
                   | None => 100
                   end)
          end in
        match problemInContest with
        | None => ret (Failure 400 (lit "Problem not found in this contest") None)
        | Some problemInContest =>
            let* problem :=
              await faults submit_Problem_findById
                (problems !! req_problemId req) in
            match problem with
            | None => ret (Failure 404 (lit "Problem not found") None)
            | Some problem =>
                tryCatch (gradeAndRecord req problem)
                  (fun message =>
                     ret (GradedWithErrors (cp_points problemInContest) message))
            end
        end
  end.

Definition submitSolution (req : Request) (st : State) : Response * State :=
  match submitSolution_try req st with
  | (Ok response, st') => (response, st')
  | (Throw message, st') =>
      match console_error (lit "Submit solution error:") message st' with
      | (_, st'') =>
          (Failure 500 (lit "Failed to submit solution") (Some message), st'')
      end
  end.

End Submit.

End SubmissionController.

(** ** Repeated applications of the aggregator *)

(** One call of [updateProblemResult]: its arguments and the clock. *)
Record Application := {
  ap_now : Date;
  ap_score : Z;
  ap_timeSpent : Z;
  ap_status : Status;
  ap_isFirstAccept : bool
}.

Definition applyOne (problemId : ObjectId) (this : ContestResult)
    (a : Application) : ContestResult :=
  ContestResultModel.updateProblemResult (ap_now a) this problemId
    (ap_score a) (ap_timeSpent a) (ap_status a) (ap_isFirstAccept a).

Definition applyAll (problemId : ObjectId) (this : ContestResult)
    (apps : list Application) : ContestResult :=
  foldl (applyOne problemId) this apps.

(** ** Vocabulary of the properties *)

(** The four languages that [executeTestCase] and [combineWithHarness] name. *)
Definition supported (language : jsstr) : bool :=
  strictEq language (lit "python") || strictEq language (lit "javascript")
  || strictEq language (lit "cpp") || strictEq language (lit "java").

(** The two with a compile step. *)
Definition compiled (language : jsstr) : bool :=
  strictEq language (lit "cpp") || strictEq language (lit "java").

(** The single-line comment marker of a supported language. *)
Definition commentMarker (language : jsstr) : option jsstr :=
  if strictEq language (lit "python") then Some (lit "#")
  else if supported language then Some (lit "//")
  else None.

(** The source was written and the compiler closed with a code other than 0. *)
Definition compileFails (w : CodeRunner.Execution) : bool :=
  match CodeRunner.ex_write w, CodeRunner.ex_compile w with
  | None, CodeRunner.Closed (Some 0) => false
  | None, CodeRunner.Closed _ => true
  | _, _ => false
  end.

(** The result pushed by [runCode] when [runCpp] or [runJava] rejects with
    [new Error('Compilation failed')]. *)
Definition compilationFailed : CodeRunner.TestResult :=
  {| CodeRunner.tr_passed := false; CodeRunner.tr_executionTime := 0;
     CodeRunner.tr_memoryUsed := 0; CodeRunner.tr_output := [];
     CodeRunner.tr_error := lit "Compilation failed" |}.

(** A process closed with exit code 0. *)
Definition closedWithZero (e : CodeRunner.ProcessEnd) : bool :=
  match e with
  | CodeRunner.Closed (Some 0) => true
  | _ => false
  end.

(** The program of a supported language was written, compiled where the
    language needs it, run, and closed with exit code 0. *)
Definition ranToExitZero (language : jsstr) (w : CodeRunner.Execution) : bool :=
  supported language
  && bool_decide (CodeRunner.ex_write w = None)
  && (negb (compiled language) || closedWithZero (CodeRunner.ex_compile w))
  && closedWithZero (CodeRunner.proc_end (CodeRunner.ex_run w)).

(** The [status] field of the data sent, when there is one. *)
Definition responseStatus (r : SubmissionController.Response) : option Status :=
  match r with
  | SubmissionController.Graded status _ _ _ _ => Some status
  | SubmissionController.GradedWithErrors _ _ => Some runtime_error
  | SubmissionController.Failure _ _ _ => None
  end.

(** The object that [submitSolution] hands to [updateContestResult]. *)
Definition summaryOf (env : nat -> CodeRunner.Execution)
    (req : SubmissionController.Request) (problem : Problem)
  : SubmissionController.SubmissionSummary :=
  let testResults :=
    CodeRunner.runCode env
      (SubmissionController.combineWithHarness
         (SubmissionController.req_code req)
         (SubmissionController.req_language req) problem)
      (SubmissionController.req_language req) (p_testCases problem) in
  let score := SubmissionController.scoreOf problem testResults in
  {| SubmissionController.sub_score := score;
     SubmissionController.sub_totalExecutionTime :=
       SubmissionController.totalExecutionTimeOf testResults;
     SubmissionController.sub_status :=
       SubmissionController.statusOf score
         (SubmissionController.maxScoreOf problem) |}.

(** The answer to a graded submission. *)
Definition gradedResponse (env : nat -> CodeRunner.Execution)
    (req : SubmissionController.Request) (problem : Problem)
  : SubmissionController.Response :=
  let testResults :=
    CodeRunner.runCode env
      (SubmissionController.combineWithHarness
         (SubmissionController.req_code req)
         (SubmissionController.req_language req) problem)
      (SubmissionController.req_language req) (p_testCases problem) in
  let score := SubmissionController.scoreOf problem testResults in
  SubmissionController.Graded
    (SubmissionController.statusOf score (SubmissionController.maxScoreOf problem))
    score (SubmissionController.maxScoreOf problem) testResults
    (SubmissionController.totalExecutionTimeOf testResults).

(** The problems of a contest as [updateContestResult] reads them:
    [Array.isArray(contest?.problems) ? contest.problems : []]. *)
Definition problemsOf (contest : option Contest) : list ContestProblem :=
  match contest with Some c => c_problems c | None => [] end.

(** A string of white space only. *)
Definition allWhiteSpace (s : jsstr) : Prop :=
  Forall (fun c => isWhiteSpace c = true) s.

(** The sum of a list of numbers. *)
Definition sumZ (l : list Z) : Z := foldr Z.add 0 l.

(** The points that a result earns: those of its test case if it passed. *)
Definition earned (r : CodeRunner.TestResult) (points : Z) : Z :=
  if CodeRunner.tr_passed r then points else 0.

(** ** Sample data *)

Module Samples.

(** A result whose only problem (id 1) is solved: 100 of 100. *)
Definition solvedEntry : ProblemResult :=
  {| pr_problemId := 1%N; pr_score := 100; pr_maxScore := 100;
     pr_timeSpent := 30; pr_submissionCount := 1;
     pr_firstAcceptedAt := Some 5; pr_status := accepted |}.

Definition solved : ContestResult :=
  {| cr_userId := 7%N; cr_contestId := 3%N;
     cr_totalScore := 100; cr_totalTime := 30;
     cr_problemResults := [solvedEntry];
     cr_penalties := 0; cr_startedAt := 1;
     cr_completedAt := None; cr_isCompleted := false |}.

(** A later submission that passes no test. *)
Definition failedAttempt : Application :=
  {| ap_now := 9; ap_score := 0; ap_timeSpent := 12;
     ap_status := attempted; ap_isFirstAccept := false |}.

(** Submissions scoring 40 then 70 (the spec's scenario), then 20. *)
Definition threeAttempts : list Application :=
  [ {| ap_now := 10; ap_score := 40; ap_timeSpent := 11;
       ap_status := partial; ap_isFirstAccept := false |};
    {| ap_now := 20; ap_score := 70; ap_timeSpent := 13;
       ap_status := partial; ap_isFirstAccept := false |};
    {| ap_now := 30; ap_score := 20; ap_timeSpent := 17;
       ap_status := partial; ap_isFirstAccept := false |} ].

Definition freshEntry : ProblemResult :=
  {| pr_problemId := 1%N; pr_score := 0; pr_maxScore := 100;
     pr_timeSpent := 0; pr_submissionCount := 0;
     pr_firstAcceptedAt := None; pr_status := not_attempted |}.

Definition joined : ContestResult :=
  {| cr_userId := 7%N; cr_contestId := 3%N;
     cr_totalScore := 0; cr_totalTime := 0;
     cr_problemResults := [freshEntry];
     cr_penalties := 0; cr_startedAt := 1;
     cr_completedAt := None; cr_isCompleted := false |}.

(** A problem (id 2) added after the user joined, worth 40 + 60 + 50. *)
Definition testCase (id : ObjectId) (input expected : string) (points : Z)
  : TestCase :=
  {| tc_id := id; tc_input := lit input; tc_expectedOutput := lit expected;
     tc_isHidden := false; tc_points := points |}.

Definition lateProblem : Problem :=
  {| p_id := 2%N;
     p_testCases := [testCase 21%N "1 2" "3" 40; testCase 22%N "3 4" "7" 60;
                     testCase 23%N "5 5" "10" 50];
     p_harshnessCode := None; p_harnessCode := None;
     p_timeLimit := 1000; p_memoryLimit := 256; p_points := 100 |}.

Definition contest : Contest :=
  {| c_id := 3%N;
     c_problems := [ {| cp_problemId := 1%N; cp_order := 1; cp_points := 100 |};
                     {| cp_problemId := 2%N; cp_order := 2; cp_points := 100 |} ];
     c_startTime := 0; c_endTime := 1000 |}.

Definition contests : gmap ObjectId Contest := {[ 3%N := contest ]}.

Definition joinedState : State :=
  {| st_contestResults := {[ (7%N, 3%N) := joined ]}; st_console := [] |}.

Definition submission (language code : string) (problemId : ObjectId)
  : SubmissionController.Request :=
  {| SubmissionController.req_userId := 7%N;
     SubmissionController.req_contestId := 3%N;
     SubmissionController.req_problemId := problemId;
     SubmissionController.req_code := lit code;
     SubmissionController.req_language := lit language |}.

(** The program prints [out] and exits with [code]. *)
Definition prints (out : jsstr) (code : Z) : CodeRunner.Execution :=
  {| CodeRunner.ex_write := None;
     CodeRunner.ex_compile := CodeRunner.Closed (Some 0);
     CodeRunner.ex_run :=
       {| CodeRunner.proc_end := CodeRunner.Closed (Some code);
          CodeRunner.proc_stdout := out; CodeRunner.proc_stderr := [] |};
     CodeRunner.ex_elapsed := 4 |}.

(** The compiler exits with code 1; nothing is run. *)
Definition doesNotCompile : CodeRunner.Execution :=
  {| CodeRunner.ex_write := None;
     CodeRunner.ex_compile := CodeRunner.Closed (Some 1);
     CodeRunner.ex_run :=
       {| CodeRunner.proc_end := CodeRunner.Errored [];
          CodeRunner.proc_stdout := []; CodeRunner.proc_stderr := [] |};
     CodeRunner.ex_elapsed := 4 |}.

(** A test case that expects "7" followed by a line feed. *)
Definition expectsSeven : TestCase :=
  {| tc_id := 31%N; tc_input := lit "3 4";
     tc_expectedOutput := lit "7" ++ LF;
     tc_isHidden := false; tc_points := 1 |}.

(** A problem (id 4) without test cases, with the default flat points. *)
Definition emptyProblem : Problem :=
  {| p_id := 4%N; p_testCases := [];
     p_harshnessCode := None; p_harnessCode := None;
     p_timeLimit := 1000; p_memoryLimit := 256; p_points := 100 |}.

(** A problem whose harness is one string for every language. *)
Definition harnessed : Problem :=
  {| p_id := 5%N; p_testCases := [expectsSeven];
     p_harshnessCode := Some (HarnessString (lit " solve() "));
     p_harnessCode := None;
     p_timeLimit := 1000; p_memoryLimit := 256; p_points := 100 |}.

Definition problems : gmap ObjectId Problem :=
  {[ 2%N := lateProblem; 4%N := emptyProblem; 5%N := harnessed ]}.

(** A contest (id 6) whose only problem is the one without test cases,
    and the state after user 7 joined it at time 1. *)
Definition contestOfEmpty : Contest :=
  {| c_id := 6%N;
     c_problems := [ {| cp_problemId := 4%N; cp_order := 1; cp_points := 100 |} ];
     c_startTime := 0; c_endTime := 1000 |}.

Definition joinedEmptyState : State :=
  {| st_contestResults :=
       {[ (7%N, 6%N) :=
            ContestController.newContestResult problems 1 7%N 6%N
              (c_problems contestOfEmpty) ]};
     st_console := [] |}.

Definition submissionToEmpty : SubmissionController.Request :=
  {| SubmissionController.req_userId := 7%N;
     SubmissionController.req_contestId := 6%N;
     SubmissionController.req_problemId := 4%N;
     SubmissionController.req_code := lit "int main( {";
     SubmissionController.req_language := lit "cpp" |}.

Definition contestsOfEmpty : gmap ObjectId Contest := {[ 6%N := contestOfEmpty ]}.

Definition nothingStored : State :=
  {| st_contestResults := ∅; st_console := [] |}.

(** Only [contestResult.save()] rejects. *)
Definition saveFails : Faults :=
  fun call =>
    match call with
    | update_ContestResult_save => Some (lit "write conflict")
    | _ => None
    end.

(** Only [ContestResult.findOne] rejects. *)
Definition findOneFails : Faults :=
  fun call =>
    match call with
    | update_ContestResult_findOne => Some (lit "connection lost")
    | _ => None
    end.

End Samples.

(** ** The other handlers

    One request reads the clock once: the [now] of a handler stands for
    each of its [new Date()]. Each awaited database call of a handler has
    its own fault, as for [submitSolution]. *)

(** An awaited read that rejects with [fault], when there is one. *)
Definition attempt {A} (fault : option jsstr) (answer : A) : M A :=
  match fault with
  | Some message => throw message
  | None => ret answer
  end.

(** [ContestResult.create(doc)] or [doc.save()] under [fault]. *)
Definition writeResult (fault : option jsstr) (doc : ContestResult)
  : M ContestResult :=
  fun st =>
    match fault with
    | Some message => (Throw message, st)
    | None =>
        (Ok doc,
         {| st_contestResults :=
              <[(cr_userId doc, cr_contestId doc) := doc]> (st_contestResults st);
            st_console := st_console st |})
    end.

(** *** joinContest and the totals of getContests (contest controller) *)

Module ContestHandlers.

Import ContestController.

Inductive JoinCall :=
| join_Contest_findById
| join_ContestResult_findOne
| join_Problem_find_all     (* Problem.find({}), only without contest problems *)
| join_Problem_find
| join_ContestResult_create.

Inductive JoinResponse :=
| JoinFailure (httpStatus : Z) (message : jsstr) (error : option jsstr)
| Joined (contestResult : ContestResult).

(** [(await Problem.find({})).map((p, idx) => ({ problemId: p._id,
    order: idx + 1, points: p.points || 100 }))] *)
Definition everyProblem (docs : list Problem) : list ContestProblem :=
  imap (fun idx p =>
          {| cp_problemId := p_id p;
             cp_order := Z.of_nat idx + 1;
             cp_points := if p_points p =? 0 then 100 else p_points p |})
       docs.

Section Join.

Variable faults : JoinCall -> option jsstr.
Variable contests : gmap ObjectId Contest.
Variable problems : gmap ObjectId Problem.
(** What [Problem.find({})] returns, in its order. *)
Variable problemDocs : list Problem.
Variable now : Date.

Definition joinContest_try (userId contestId : ObjectId) : M JoinResponse :=
  let* contest := attempt (faults join_Contest_findById) (contests !! contestId) in
  match contest with
  | None => ret (JoinFailure 404 (lit "Contest not found") None)
  | Some contest =>
      if now <? c_startTime contest then
        ret (JoinFailure 400 (lit "Contest has not started yet") None)
      else if c_endTime contest <? now then
        ret (JoinFailure 400 (lit "Contest has already ended") None)
      else
        let* existingResult :=
          fun st =>
            attempt (faults join_ContestResult_findOne)
              (st_contestResults st !! (userId, contestId)) st in
        match existingResult with
        | Some _ =>
            ret (JoinFailure 400 (lit "You have already joined this contest") None)
        | None =>
            let* allProblems :=
              if (0 <? length (c_problems contest))%nat
              then ret (c_problems contest)
              else attempt (faults join_Problem_find_all) (everyProblem problemDocs) in
            let* probMap := attempt (faults join_Problem_find) problems in
            let* contestResult :=
              writeResult (faults join_ContestResult_create)
                (newContestResult probMap now userId contestId allProblems) in
            ret (Joined contestResult)
        end
  end.

Definition joinContest (userId contestId : ObjectId) (st : State)
  : JoinResponse * State :=
  match joinContest_try userId contestId st with
  | (Ok response, st') => (response, st')
  | (Throw message, st') =>
      match console_error (lit "Join contest error:") message st' with
      | (_, st'') =>
          (JoinFailure 500 (lit "Failed to join contest") (Some message), st'')
      end
  end.

End Join.

(** The summand of [getContests] for one contest problem; [full] is
    [map.get(String(p.problemId)) || {}]. The contest's [points] is always
    a number, so the third alternative is never reached. *)
Definition possibleScore (full : option Problem) (p : ContestProblem) : Z :=
  let testCases := match full with Some f => p_testCases f | None => [] end in
  if (0 <? length testCases)%nat
  then foldl (fun s tc => s + tc_points tc) 0 testCases
  else cp_points p.

(** [totalPossibleScore] of [getContests] for one contest. *)
Definition totalPossibleScore (problems : gmap ObjectId Problem)
    (contestProblems : list ContestProblem) : Z :=
  foldl (fun total p => total + possibleScore (problems !! cp_problemId p) p)
    0 contestProblems.

End ContestHandlers.

(** *** submitFinalResults (submission controller) *)

Module FinalResults.

Import ContestResultModel.

(** [String(n).padStart(2, '0')] *)
Definition pad (n : Z) : jsstr :=
  let s := lit (pretty n) in
  replicate (2 - length s) 48%N ++ s.

Definition formatMsToHHMMSS (ms : Z) : jsstr :=
  let totalSeconds := Z.max 0 (ms / 1000) in
  let hh := totalSeconds / 3600 in
  let mm := (totalSeconds mod 3600) / 60 in
  let ss := totalSeconds mod 60 in
  pad hh ++ lit ":" ++ pad mm ++ lit ":" ++ pad ss.

(** [parseDurationToMs] on [null] ([None]) or an integral number. A
    string goes through [Number], which is outside the model. *)
Definition parseDurationToMs (value : option Z) : Z :=
  match value with
  | None => 0
  | Some v => if 3600 <? v then v else v * 1000
  end.

Inductive FinalCall :=
| final_Contest_findById
| final_ContestResult_findOne
| final_ContestResult_create
| final_ContestResult_save.

(** An element of the body's [problemResults]; [score] is an integer. *)
Record FinalReport := {
  fr_problemId : ObjectId;
  fr_score : Z
}.

Record FinalRequest := {
  fin_authenticated : ObjectId;   (* req.user.id *)
  fin_userId : ObjectId;
  fin_contestId : ObjectId;
  fin_totalScore : Z;
  fin_penaltyPoints : Z;
  fin_problemResults : list FinalReport;
  fin_totalTime : option Z
}.

(** The response; the document's [_id] is not modelled. *)
Inductive FinalResponse :=
| FinalFailure (httpStatus : Z) (message : jsstr) (error : option jsstr)
| FinalOk (totalScore penaltyPoints : Z) (totalTime : jsstr) (completedAt : Date).

(** The document created when the user has no result yet. *)
Definition blankResult (now : Date) (userId contestId : ObjectId)
    (contest : Contest) : ContestResult :=
  {| cr_userId := userId; cr_contestId := contestId;
     cr_totalScore := 0; cr_totalTime := 0;
     cr_problemResults :=
       map (fun p => {| pr_problemId := cp_problemId p; pr_score := 0;
                        pr_maxScore := cp_points p; pr_timeSpent := 0;
                        pr_submissionCount := 0; pr_firstAcceptedAt := None;
                        pr_status := not_attempted |})
           (c_problems contest);
     cr_penalties := 0; cr_startedAt := now;
     cr_completedAt := None; cr_isCompleted := false |}.

(** The assignments under "Update final results". *)
Definition markCompleted (now : Date) (req : FinalRequest)
    (contestResult : ContestResult) : ContestResult :=
  {| cr_userId := cr_userId contestResult;
     cr_contestId := cr_contestId contestResult;
     cr_totalScore := fin_totalScore req;
     cr_totalTime := parseDurationToMs (fin_totalTime req);
     cr_problemResults := cr_problemResults contestResult;
     cr_penalties := fin_penaltyPoints req;
     cr_startedAt := cr_startedAt contestResult;
     cr_completedAt := Some now;
     cr_isCompleted := true |}.

(** One turn of the [forEach] over the reported problem results. *)
Definition applyReport (now : Date) (contestResult : ContestResult)
    (report : FinalReport) : ContestResult :=
  updateProblemResult now contestResult (fr_problemId report) (fr_score report)
    0 (if 0 <? fr_score report then accepted else attempted) false.

Definition applyReports (now : Date) (contestResult : ContestResult)
    (reports : list FinalReport) : ContestResult :=
  foldl (applyReport now) contestResult reports.

Section Final.

Variable faults : FinalCall -> option jsstr.
Variable contests : gmap ObjectId Contest.
Variable now : Date.

Definition submitFinalResults_try (req : FinalRequest) : M FinalResponse :=
  if negb (bool_decide (fin_userId req = fin_authenticated req)) then
    ret (FinalFailure 403 (lit "Access denied") None)
  else
    let* contest :=
      attempt (faults final_Contest_findById) (contests !! fin_contestId req) in
    match contest with
    | None => ret (FinalFailure 404 (lit "Contest not found") None)
    | Some contest =>
        let* found :=
          fun st =>
            attempt (faults final_ContestResult_findOne)
              (st_contestResults st !! (fin_userId req, fin_contestId req)) st in
        let* contestResult :=
          match found with
          | Some contestResult => ret contestResult
          | None =>
              writeResult (faults final_ContestResult_create)
                (blankResult now (fin_userId req) (fin_contestId req) contest)
          end in
        let final :=
          applyReports now (markCompleted now req contestResult)
            (fin_problemResults req) in
        let* _ := writeResult (faults final_ContestResult_save) final in
        ret (FinalOk (fin_totalScore req) (fin_penaltyPoints req)
               (formatMsToHHMMSS (cr_totalTime final)) now)
    end.

Definition submitFinalResults (req : FinalRequest) (st : State)
  : FinalResponse * State :=
  match submitFinalResults_try req st with
  | (Ok response, st') => (response, st')
  | (Throw message, st') =>
      match console_error (lit "Submit final results error:") message st' with
      | (_, st'') =>
          (FinalFailure 500 (lit "Failed to submit final results") (Some message),
           st'')
      end
  end.

End Final.

End FinalResults.

(** ** Vocabulary of the further properties *)

(** The result pushed by [runCode] for a language without adapter. *)
Definition unsupportedResult (language : jsstr) : CodeRunner.TestResult :=
  {| CodeRunner.tr_passed := false; CodeRunner.tr_executionTime := 0;
     CodeRunner.tr_memoryUsed := 0; CodeRunner.tr_output := [];
     CodeRunner.tr_error := lit "Unsupported language: " ++ language |}.

(** The time that a run adds to the total: its wall-clock time when it
    ended with exit code 0, nothing otherwise. *)
Definition countedTime (language : jsstr) (w : CodeRunner.Execution) : Z :=
  if ranToExitZero language w then CodeRunner.ex_elapsed w else 0.

(** The harness text of a problem for a language, before it is trimmed. *)
Definition harnessText (language : jsstr) (problem : Problem) : jsstr :=
  match SubmissionController.rawHarness problem with
  | HarnessObject raw => default [] (raw !! language)
  | HarnessString raw => raw
  end.

(** More sample data. *)
Module MoreSamples.

(** Writing the source succeeds; what the processes would do is irrelevant. *)
Definition idle : CodeRunner.Execution := Samples.prints (lit "3") 0.

Definition rubySubmission : SubmissionController.Request :=
  Samples.submission "ruby" "puts 3" 2%N.

(** The harness of [Samples.harnessed] without the spaces around it. *)
Definition harnessedTight : Problem :=
  {| p_id := 5%N; p_testCases := [Samples.expectsSeven];
     p_harshnessCode := Some (HarnessString (lit "solve()"));
     p_harnessCode := None;
     p_timeLimit := 1000; p_memoryLimit := 256; p_points := 100 |}.

(** The state after user 7 joined the sample contest (id 3) at time 1, with
    an entry for each of its two problems. *)
Definition joinedBoth : ContestResult :=
  ContestController.newContestResult Samples.problems 1 7%N 3%N
    (c_problems Samples.contest).

Definition joinedBothState : State :=
  {| st_contestResults := {[ (7%N, 3%N) := joinedBoth ]}; st_console := [] |}.

(** A Python submission for problem 2 that prints 3 at every test case: the
    first test case (40 points) passes. *)
Definition printsThree : SubmissionController.Request :=
  Samples.submission "python" "print(3)" 2%N.

(** Final results of user 7 for the sample contest: 100 points for problem
    1, none for problem 2, a total of 999 and 90 seconds claimed. *)
Definition finalRequest : FinalResults.FinalRequest :=
  {| FinalResults.fin_authenticated := 7%N;
     FinalResults.fin_userId := 7%N;
     FinalResults.fin_contestId := 3%N;
     FinalResults.fin_totalScore := 999;
     FinalResults.fin_penaltyPoints := 5;
     FinalResults.fin_problemResults :=
       [ {| FinalResults.fr_problemId := 1%N; FinalResults.fr_score := 100 |};
         {| FinalResults.fr_problemId := 2%N; FinalResults.fr_score := 0 |} ];
     FinalResults.fin_totalTime := Some 90 |}.

(** A contest problem whose points differ from the flat points of its
    problem, which has test cases. *)
Definition contestProblems : list ContestProblem :=
  [ {| cp_problemId := 2%N; cp_order := 1; cp_points := 70 |};
    {| cp_problemId := 9%N; cp_order := 2; cp_points := 30 |} ].

End MoreSamples.

(** * Theorems *)

Import CodeRunner ContestResultModel ContestController SubmissionController.

(** ** The aggregator *)

Lemma calculateTotals_problemResults this :
  cr_problemResults (calculateTotals this) = cr_problemResults this.
Proof. reflexivity. Qed.

(** What [updateProblemResult] does to the entries when one exists. *)
Lemma updateProblemResult_existing now this problemId i pr score timeSpent status fa :
  findProblemResult this problemId = Some (i, pr) ->
  cr_problemResults (updateProblemResult now this problemId score timeSpent status fa)
  = <[i := mergeInto now pr score timeSpent status fa]> (cr_problemResults this).
Proof.
  intros Hfind. unfold updateProblemResult. rewrite Hfind. reflexivity.
Qed.

(** What it does when none exists. *)
Lemma updateProblemResult_missing now this problemId score timeSpent status fa :
  findProblemResult this problemId = None ->
  cr_problemResults (updateProblemResult now this problemId score timeSpent status fa)
  = cr_problemResults this ++ [synthesized now problemId score timeSpent status fa].
Proof.
  intros Hfind. unfold updateProblemResult. rewrite Hfind. reflexivity.
Qed.

(** The entry of a problem stays where it is, and is the merged one. *)
Lemma find_after_update now this problemId i pr score timeSpent status fa :
  findProblemResult this problemId = Some (i, pr) ->
  findProblemResult (updateProblemResult now this problemId score timeSpent status fa)
    problemId
  = Some (i, mergeInto now pr score timeSpent status fa).
Proof.
  intros Hfind. unfold findProblemResult at 1.
  rewrite (updateProblemResult_existing _ _ _ _ _ _ _ _ _ Hfind).
  unfold findProblemResult in Hfind.
  apply list_find_Some in Hfind as (Hi & Hid & Hbefore).
  apply list_find_Some. split; [| split].
  - apply list_lookup_insert_eq. eapply lookup_lt_Some; eassumption.
  - exact Hid.
  - intros j y Hj Hlt. rewrite list_lookup_insert_ne in Hj by lia.
    eapply Hbefore; eassumption.
Qed.

Lemma find_after_missing now this problemId score timeSpent status fa :
  findProblemResult this problemId = None ->
  findProblemResult (updateProblemResult now this problemId score timeSpent status fa)
    problemId
  = Some (length (cr_problemResults this),
          synthesized now problemId score timeSpent status fa).
Proof.
  intros Hfind. unfold findProblemResult at 1.
  rewrite (updateProblemResult_missing _ _ _ _ _ _ _ Hfind).
  unfold findProblemResult in Hfind.
  apply list_find_None in Hfind.
  apply list_find_Some. split; [| split].
  - rewrite lookup_app_r by lia. by rewrite Nat.sub_diag.
  - reflexivity.
  - intros j y Hj Hlt. rewrite lookup_app_l in Hj by lia.
    rewrite Forall_forall in Hfind. apply Hfind.
    apply list_elem_of_lookup. eauto.
Qed.

Lemma foldl_max_le (x : Z) (l : list Z) : x <= foldl Z.max x l.
Proof.
  revert x. induction l as [| y l IH]; intros x; simpl; [lia |].
  specialize (IH (Z.max x y)). lia.
Qed.

(** C5. For an existing ProblemResult and any sequence of applications of
    [updateProblemResult] to it: the entry stays in place; its score is the
    maximum of the previous score and the submitted ones, so it never
    decreases; submissionCount grows by one per application; timeSpent grows
    by the sum of the submitted times; firstAcceptedAt, once set, keeps its
    value. *)
Theorem C5_aggregator_accumulates (problemId : ObjectId)
    (apps : list Application) (this : ContestResult) (i : nat)
    (pr : ProblemResult) :
  findProblemResult this problemId = Some (i, pr) ->
  exists pr',
    findProblemResult (applyAll problemId this apps) problemId = Some (i, pr')
    /\ pr_score pr' = foldl Z.max (pr_score pr) (map ap_score apps)
    /\ pr_score pr <= pr_score pr'
    /\ pr_submissionCount pr' = pr_submissionCount pr + Z.of_nat (length apps)
    /\ pr_timeSpent pr' = pr_timeSpent pr + foldr Z.add 0 (map ap_timeSpent apps)
    /\ (forall d, pr_firstAcceptedAt pr = Some d -> pr_firstAcceptedAt pr' = Some d).
Proof.
  revert this pr.
  induction apps as [| a apps IH]; intros this pr Hfind.
  - exists pr. simpl. repeat split; auto; lia.
  - pose proof (find_after_update (ap_now a) this problemId i pr (ap_score a)
                  (ap_timeSpent a) (ap_status a) (ap_isFirstAccept a) Hfind) as Hstep.
    destruct (IH _ _ Hstep) as (pr' & Hf & Hs & _ & Hc & Ht & Hd).
    exists pr'. cbn [applyAll foldl map foldr length] in *.
    split; [exact Hf |]. split; [exact Hs |].
    split; [| split; [| split]].
    + rewrite Hs. cbn [mergeInto pr_score].
      pose proof (foldl_max_le (Z.max (pr_score pr) (ap_score a))
                    (map ap_score apps)). lia.
    + rewrite Hc. cbn [mergeInto pr_submissionCount]. lia.
    + rewrite Ht. cbn [mergeInto pr_timeSpent]. lia.
    + intros d Hset. apply Hd. cbn [mergeInto pr_firstAcceptedAt].
      rewrite Hset. rewrite bool_decide_eq_true_2 by eauto.
      by rewrite andb_false_r.
Qed.

Lemma C5_aggregator_accumulates_witness :
  findProblemResult Samples.solved 1%N = Some (0%nat, Samples.solvedEntry)
  /\ exists pr',
       findProblemResult (applyAll 1%N Samples.solved Samples.threeAttempts) 1%N
       = Some (0%nat, pr')
       /\ pr_score pr' = 100
       /\ pr_submissionCount pr' = 4
       /\ pr_timeSpent pr' = 71
       /\ pr_firstAcceptedAt pr' = Some 5.
Proof.
  split; [reflexivity |].
  destruct (C5_aggregator_accumulates 1%N Samples.threeAttempts Samples.solved
              0%nat Samples.solvedEntry eq_refl)
    as (pr' & Hfind & Hscore & _ & Hcount & Htime & Hfirst).
  exists pr'. split; [exact Hfind |]. split; [exact Hscore |].
  split; [exact Hcount |]. split; [exact Htime |].
  apply Hfirst. reflexivity.
Defined.

(** Two submissions that score 40 then 70 of 100, on a fresh entry: score
    70, status 'partial', two submissions, the two times added. *)
Example forty_then_seventy :
  findProblemResult
    (applyAll 1%N Samples.joined (take 2 Samples.threeAttempts)) 1%N
  = Some (0%nat,
          {| pr_problemId := 1%N; pr_score := 70; pr_maxScore := 100;
             pr_timeSpent := 24; pr_submissionCount := 2;
             pr_firstAcceptedAt := None; pr_status := partial |}).
Proof. reflexivity. Qed.

(** The status of an existing entry is replaced by the submitted one,
    whatever it was. *)
Lemma updateProblemResult_status now this problemId i pr score timeSpent status fa :
  findProblemResult this problemId = Some (i, pr) ->
  exists pr',
    findProblemResult (updateProblemResult now this problemId score timeSpent status fa)
      problemId = Some (i, pr')
    /\ pr_status pr' = status.
Proof.
  intros Hfind. eexists. split; [by apply find_after_update |]. reflexivity.
Qed.

(** C1. An entry that is accepted with 100 of 100 receives a further
    submission that scores 0: the score stays 100 and firstAcceptedAt stays
    set, but the status becomes 'attempted'. *)
Theorem C1_accepted_status_regresses :
  findProblemResult Samples.solved 1%N = Some (0%nat, Samples.solvedEntry)
  /\ pr_status Samples.solvedEntry = accepted
  /\ findProblemResult (applyOne 1%N Samples.solved Samples.failedAttempt) 1%N
     = Some (0%nat,
             {| pr_problemId := 1%N; pr_score := 100; pr_maxScore := 100;
                pr_timeSpent := 42; pr_submissionCount := 2;
                pr_firstAcceptedAt := Some 5; pr_status := attempted |}).
Proof. repeat split. Qed.

(** The entry synthesized for a problem without one has maxScore 100. *)
Lemma synthesized_maxScore now this problemId score timeSpent status fa :
  findProblemResult this problemId = None ->
  exists i pr',
    findProblemResult (updateProblemResult now this problemId score timeSpent status fa)
      problemId = Some (i, pr')
    /\ pr_maxScore pr' = 100.
Proof.
  intros Hfind. do 2 eexists. split; [by apply find_after_missing |]. reflexivity.
Qed.

(** C6. A user joined before problem 2 (test points 40, 60 and 50, so 150
    in all) was added to the contest. A submission scoring 60 for it goes
    through [updateContestResult]: the entry persisted for problem 2 has
    maxScore 100. *)
Theorem C6_synthesized_maxScore_is_100 :
  maxScoreOf Samples.lateProblem = 150
  /\ findProblemResult Samples.joined 2%N = None
  /\ (st_contestResults
        (snd (updateContestResult noFaults Samples.contests
                {[ 2%N := Samples.lateProblem ]} 50 7%N 3%N 2%N
                {| sub_score := 60; sub_totalExecutionTime := 8;
                   sub_status := partial |} Samples.joinedState))
        !! (7%N, 3%N))
     ≫= (fun cr => snd <$> findProblemResult cr 2%N)
     = Some {| pr_problemId := 2%N; pr_score := 60; pr_maxScore := 100;
               pr_timeSpent := 8; pr_submissionCount := 1;
               pr_firstAcceptedAt := None; pr_status := partial |}.
Proof. repeat split. Qed.

(** ** The code runner *)

(** A language is one of the four literals, or none of them. *)
Lemma language_cases (language : jsstr) :
  let tests := (strictEq language (lit "python"),
                strictEq language (lit "javascript"),
                strictEq language (lit "cpp"),
                strictEq language (lit "java")) in
  tests = (true, false, false, false) \/ tests = (false, true, false, false)
  \/ tests = (false, false, true, false) \/ tests = (false, false, false, true)
  \/ tests = (false, false, false, false).
Proof.
  unfold strictEq.
  destruct (decide (language = lit "python")) as [-> | Hpy];
    [left; reflexivity |].
  destruct (decide (language = lit "javascript")) as [-> | Hjs];
    [right; left; reflexivity |].
  destruct (decide (language = lit "cpp")) as [-> | Hcpp];
    [do 2 right; left; reflexivity |].
  destruct (decide (language = lit "java")) as [-> | Hjava];
    [do 3 right; left; reflexivity |].
  do 4 right. cbv zeta.
  by rewrite !bool_decide_eq_false_2.
Qed.

Ltac by_language language :=
  let H := fresh "Hlang" in
  destruct (language_cases language) as [H | [H | [H | [H | H]]]];
  cbv zeta in H;
  let H1 := fresh "Hpy" in
  let H2 := fresh "Hjs" in
  let H3 := fresh "Hcpp" in
  let H4 := fresh "Hjava" in
  injection H as H1 H2 H3 H4;
  rewrite ?H1, ?H2, ?H3, ?H4.

Ltac by_process_end e :=
  let c := fresh "code" in
  destruct e as [[[| c | c] |] | ?].

Lemma strictEq_true (a b : jsstr) : strictEq a b = true <-> a = b.
Proof. apply bool_decide_eq_true. Qed.

(** *** Trimming ignores the white space around a string *)

Lemma trimStart_ws (ws s : jsstr) :
  allWhiteSpace ws -> trimStart (ws ++ s) = trimStart s.
Proof.
  intros Hws. induction Hws as [| c ws Hc _ IH]; simpl; [reflexivity |].
  by rewrite Hc.
Qed.

Lemma trimStart_nil (s : jsstr) : trimStart s = [] -> allWhiteSpace s.
Proof.
  induction s as [| c s IH]; simpl; [constructor |].
  destruct (isWhiteSpace c) eqn:Hc; [| discriminate].
  intros Hs. constructor; [exact Hc | by apply IH].
Qed.

Lemma trimStart_app (s t : jsstr) :
  trimStart s <> [] -> trimStart (s ++ t) = trimStart s ++ t.
Proof.
  induction s as [| c s IH]; simpl; [congruence |].
  destruct (isWhiteSpace c); [exact IH | reflexivity].
Qed.

Lemma trimEnd_ws (s ws : jsstr) :
  allWhiteSpace ws -> trimEnd (s ++ ws) = trimEnd s.
Proof.
  intros Hws. unfold trimEnd. rewrite reverse_app.
  rewrite trimStart_ws; [reflexivity |]. by apply Forall_reverse.
Qed.

Lemma trim_ignores_surrounding (before s after : jsstr) :
  allWhiteSpace before -> allWhiteSpace after ->
  trim (before ++ s ++ after) = trim s.
Proof.
  intros Hbefore Hafter. unfold trim. rewrite trimStart_ws by exact Hbefore.
  destruct (trimStart s) as [| c t] eqn:Hs.
  - apply trimStart_nil in Hs.
    replace (s ++ after) with ((s ++ after) ++ []) by apply app_nil_r.
    rewrite trimStart_ws; [reflexivity |]. by apply Forall_app.
  - rewrite trimStart_app by congruence. rewrite Hs.
    by apply trimEnd_ws.
Qed.

(** C7 (as amended). The result pushed for a test case has [passed] true
    exactly when the program of a supported language was written, compiled
    where needed, closed with exit code 0, and its trimmed stdout equals the
    trimmed expected output. On every other path (non-zero or null exit
    code, spawn error, compile failure, write failure, unsupported language)
    [passed] is false whatever was printed. *)
Theorem C7_passed_iff_exit_zero_and_output_matches (code language : jsstr)
    (testCase : TestCase) (w : Execution) :
  tr_passed (runOne code language testCase w) = true
  <-> ranToExitZero language w = true
      /\ trim (proc_stdout (ex_run w)) = trim (tc_expectedOutput testCase).
Proof.
  rewrite <- strictEq_true.
  unfold runOne, executeTestCase, ranToExitZero, supported, compiled,
    runPython, runJavaScript, runCpp, runJava, settleRun.
  by_language language;
    destruct (ex_write w); by_process_end (ex_compile w);
    by_process_end (proc_end (ex_run w)); cbn;
    intuition congruence.
Qed.

(** The claim's example: with exit code 0, "  7  " passes against "7\n". *)
Example seven_padded_passes :
  tr_passed (runOne (lit "print(3+4)") (lit "python") Samples.expectsSeven
               (Samples.prints (lit "  7  ") 0)) = true.
Proof. reflexivity. Qed.

(** Internal white space is significant. *)
Example seven_then_eight_fails :
  tr_passed (runOne (lit "print(3+4)") (lit "python") Samples.expectsSeven
               (Samples.prints (lit "7 " ++ LF ++ lit "8") 0)) = false.
Proof. reflexivity. Qed.

(** C7, the claim as stated fails: a Python program prints "7" and exits
    with code 1; the trimmed output equals the trimmed expected output, and
    [passed] is false. *)
Lemma C7_nonzero_exit_counterexample :
  ~ (tr_passed (runOne (lit "print(3+4)") (lit "python") Samples.expectsSeven
                  (Samples.prints (lit "7") 1)) = true
     <-> trim (proc_stdout (ex_run (Samples.prints (lit "7") 1)))
         = trim (tc_expectedOutput Samples.expectsSeven)).
Proof.
  intros [_ H]. specialize (H eq_refl). discriminate H.
Qed.

(** [r.testCaseId] is undefined on every object that [runCode] returns. *)
Lemma no_testCaseId (r : TestResult) : getProperty r "testCaseId" = JsUndefined.
Proof. reflexivity. Qed.

(** C8 (as amended). [runCode] returns one result per test case, in the
    order of the test cases: the i-th result is the one of running the i-th
    test case, and there is an i-th result exactly when there is an i-th
    test case. The results carry no testCaseId. *)
Theorem C8_results_aligned_with_test_cases (env : nat -> Execution)
    (code language : jsstr) (testCases : list TestCase) :
  length (runCode env code language testCases) = length testCases
  /\ (forall i : nat,
        runCode env code language testCases !! i
        = (fun testCase => runOne code language testCase (env i))
            <$> (testCases !! i))
  /\ Forall (fun r => getProperty r "testCaseId" = JsUndefined)
       (runCode env code language testCases).
Proof.
  split; [| split].
  - unfold runCode. apply length_imap.
  - intros i. unfold runCode. apply list_lookup_imap.
  - apply Forall_forall. intros r _. apply no_testCaseId.
Qed.

(** C8, the claim as stated fails: for the three test cases of the sample
    problem, no result has the id of its test case as testCaseId. *)
Lemma C8_testCaseId_counterexample :
  ~ (forall (i : nat) (testCase : TestCase),
       p_testCases Samples.lateProblem !! i = Some testCase ->
       exists r,
         runCode (fun _ => Samples.prints (lit "3") 0) (lit "print(3)")
           (lit "python") (p_testCases Samples.lateProblem) !! i = Some r
         /\ getProperty r "testCaseId" = JsObjectId (tc_id testCase)).
Proof.
  intros H. destruct (H 0%nat _ eq_refl) as (r & _ & Hid).
  rewrite no_testCaseId in Hid. discriminate Hid.
Qed.

(** ** Scoring *)

Lemma reduceFrom_none_passed (points : list Z) (testResults : list TestResult)
    (acc : Z) (idx : nat) :
  Forall (fun r => tr_passed r = false) testResults ->
  reduceFrom
    (fun sum r i => sum + (if tr_passed r then default 0 (points !! i) else 0))
    acc idx testResults = acc.
Proof.
  intros Hall. revert acc idx.
  induction Hall as [| r rs Hr _ IH]; intros acc idx; simpl; [reflexivity |].
  rewrite Hr, Z.add_0_r. apply IH.
Qed.

Lemma totalExecutionTimeOf_replicate_zero (n : nat) (r : TestResult) :
  tr_executionTime r = 0 -> totalExecutionTimeOf (replicate n r) = 0.
Proof.
  intros Hr. unfold totalExecutionTimeOf.
  induction n as [| n IH]; simpl; [reflexivity |]. by rewrite Hr.
Qed.

(** ** [updateContestResult] swallows every error *)

Lemma updateContestResult_returns faults contests problems now
    userId contestId problemId submission st :
  fst (updateContestResult faults contests problems now userId contestId
         problemId submission st) = Ok tt.
Proof.
  unfold updateContestResult, tryCatch.
  destruct (updateContestResult_try _ _ _ _ _ _ _ _ st) as [[[] | message] st'];
    reflexivity.
Qed.

(** The answer of a graded submission does not depend on the database. *)
Lemma gradeAndRecord_response faults env contests problems now req problem st :
  let testResults :=
    runCode env (combineWithHarness (req_code req) (req_language req) problem)
      (req_language req) (p_testCases problem) in
  let score := scoreOf problem testResults in
  fst (gradeAndRecord faults env contests problems now req problem st)
  = Ok (Graded (statusOf score (maxScoreOf problem)) score (maxScoreOf problem)
          testResults (totalExecutionTimeOf testResults)).
Proof.
  cbv zeta. unfold gradeAndRecord, bind.
  match goal with
  | |- context [updateContestResult ?f ?c ?p ?n ?u ?ci ?pi ?s ?st] =>
      pose proof (updateContestResult_returns f c p n u ci pi s st) as Hret;
      destruct (updateContestResult f c p n u ci pi s st) as [r st']
  end.
  simpl in Hret. subst r. reflexivity.
Qed.

Lemma runOne_compile_failure (code language : jsstr) (testCase : TestCase)
    (w : Execution) :
  compiled language = true -> compileFails w = true ->
  runOne code language testCase w = compilationFailed.
Proof.
  unfold compiled, compileFails, runOne, executeTestCase, runCpp, runJava.
  by_language language; cbn; try discriminate;
    destruct (ex_write w); try discriminate;
    by_process_end (ex_compile w); try discriminate; reflexivity.
Qed.

(** C4 (as amended). When the source of a C++ or Java submission is written
    and the compiler closes with a code other than 0 at every test case,
    every TestResult is the same: passed false, error 'Compilation failed',
    no output. The score is 0 and the status answered is the one derived
    from the score: 'attempted' when the problem's maxScore is positive. *)
Theorem C4_compile_failure_scores_zero faults (env : nat -> Execution)
    contests problems now (req : Request) (problem : Problem) (st : State) :
  compiled (req_language req) = true ->
  (forall i : nat, (i < length (p_testCases problem))%nat ->
                   compileFails (env i) = true) ->
  0 < maxScoreOf problem ->
  runCode env (combineWithHarness (req_code req) (req_language req) problem)
    (req_language req) (p_testCases problem)
  = replicate (length (p_testCases problem)) compilationFailed
  /\ fst (gradeAndRecord faults env contests problems now req problem st)
     = Ok (Graded attempted 0 (maxScoreOf problem)
             (replicate (length (p_testCases problem)) compilationFailed) 0).
Proof.
  intros Hlang Hfail Hmax.
  assert (runCode env (combineWithHarness (req_code req) (req_language req) problem)
            (req_language req) (p_testCases problem)
          = replicate (length (p_testCases problem)) compilationFailed) as Hrun.
  { apply list_eq. intros i. unfold runCode. rewrite list_lookup_imap.
    destruct (p_testCases problem !! i) as [testCase |] eqn:Hi; simpl.
    - pose proof (lookup_lt_Some _ _ _ Hi) as Hlt.
      rewrite lookup_replicate_2 by exact Hlt.
      f_equal. apply runOne_compile_failure; auto.
    - symmetry. apply lookup_replicate_None.
      by apply lookup_ge_None. }
  split; [exact Hrun |].
  rewrite gradeAndRecord_response. cbv zeta. rewrite Hrun.
  assert (scoreOf problem (replicate (length (p_testCases problem)) compilationFailed)
          = 0) as ->.
  { unfold scoreOf. apply reduceFrom_none_passed.
    apply Forall_replicate. reflexivity. }
  rewrite totalExecutionTimeOf_replicate_zero by reflexivity.
  unfold statusOf. rewrite bool_decide_eq_false_2 by lia. reflexivity.
Qed.

Lemma C4_compile_failure_scores_zero_witness :
  compiled (lit "cpp") = true
  /\ runCode (fun _ => Samples.doesNotCompile)
       (combineWithHarness (lit "int main( {") (lit "cpp") Samples.lateProblem)
       (lit "cpp") (p_testCases Samples.lateProblem)
     = [compilationFailed; compilationFailed; compilationFailed]
  /\ fst (gradeAndRecord noFaults (fun _ => Samples.doesNotCompile)
            Samples.contests Samples.problems 50
            (Samples.submission "cpp" "int main( {" 2%N) Samples.lateProblem
            Samples.joinedState)
     = Ok (Graded attempted 0 150
             [compilationFailed; compilationFailed; compilationFailed] 0).
Proof.
  split; [reflexivity |].
  exact (C4_compile_failure_scores_zero noFaults (fun _ => Samples.doesNotCompile)
           Samples.contests Samples.problems 50
           (Samples.submission "cpp" "int main( {" 2%N) Samples.lateProblem
           Samples.joinedState eq_refl (fun _ _ => eq_refl) eq_refl).
Defined.

(** C4, the claim as stated fails: a C++ submission that does not compile,
    for the sample problem worth 150, is answered with status 'attempted',
    not 'compilation_error'. *)
Lemma C4_status_counterexample :
  ~ (responseStatus
       (fst (submitSolution noFaults (fun _ => Samples.doesNotCompile)
               Samples.contests Samples.problems 50
               (Samples.submission "cpp" "int main( {" 2%N)
               Samples.joinedState))
     = Some compilation_error).
Proof.
  assert (responseStatus
            (fst (submitSolution noFaults (fun _ => Samples.doesNotCompile)
                    Samples.contests Samples.problems 50
                    (Samples.submission "cpp" "int main( {" 2%N)
                    Samples.joinedState))
          = Some attempted) as -> by (vm_compute; reflexivity).
  discriminate.
Qed.

(** ** The harness composer *)

(** C9 (as amended). With a resolved harness that is not empty after
    trimming: for python, javascript, cpp and java the result is the user
    code, a line feed, the START marker behind the language's comment sign,
    a line feed, the trimmed harness, a line feed and the END marker; for
    every other language the result is the user code unchanged, and nothing
    is raised. *)
Theorem C9_harness_appended_for_four_languages (userCode language : jsstr)
    (problem : Problem) :
  falsy (resolveHarness language problem) = false ->
  (supported language = true ->
   exists marker,
     commentMarker language = Some marker
     /\ combineWithHarness userCode language problem
        = userCode ++ LF ++ marker ++ lit " --- HARNESS START ---" ++ LF
            ++ resolveHarness language problem ++ LF
            ++ marker ++ lit " --- HARNESS END ---")
  /\ (supported language = false ->
      combineWithHarness userCode language problem = userCode).
Proof.
  intros Hharness.
  unfold combineWithHarness, commentMarker, supported. rewrite Hharness.
  by_language language; cbn [orb]; (split; [| done || discriminate]).
  - intros _. exists (lit "#"). split; reflexivity.
  - intros _. exists (lit "//"). split; reflexivity.
  - intros _. exists (lit "//"). split; reflexivity.
  - intros _. exists (lit "//"). split; reflexivity.
  - discriminate.
Qed.

Lemma C9_harness_appended_for_four_languages_witness :
  falsy (resolveHarness (lit "python") Samples.harnessed) = false
  /\ supported (lit "python") = true
  /\ exists marker,
       commentMarker (lit "python") = Some marker
       /\ combineWithHarness (lit "def f(): pass") (lit "python") Samples.harnessed
          = lit "def f(): pass" ++ LF ++ marker ++ lit " --- HARNESS START ---"
              ++ LF ++ lit "solve()" ++ LF ++ marker ++ lit " --- HARNESS END ---".
Proof.
  split; [reflexivity |]. split; [reflexivity |].
  exact (proj1 (C9_harness_appended_for_four_languages (lit "def f(): pass")
                  (lit "python") Samples.harnessed eq_refl) eq_refl).
Defined.

(** C9, the claim as stated fails: for an unsupported language the harness,
    though not empty, is dropped and the user code comes back unchanged. *)
Lemma C9_unsupported_language_counterexample :
  ~ (falsy (resolveHarness (lit "ruby") Samples.harnessed) = false ->
     combineWithHarness (lit "puts 1") (lit "ruby") Samples.harnessed
     <> lit "puts 1").
Proof.
  intros H. exact (H eq_refl eq_refl).
Qed.

(** ** The scoring of a submission *)

Lemma foldl_add_sumZ (l : list Z) (acc : Z) :
  foldl (fun s p => s + p) acc l = acc + sumZ l.
Proof.
  revert acc. induction l as [| p l IH]; intros acc; simpl; [lia |].
  rewrite IH. unfold sumZ. simpl. lia.
Qed.

(** With test cases, maxScore is the sum of their points. *)
Lemma maxScoreOf_sum (problem : Problem) :
  maxScoreOf problem = sumZ (map tc_points (p_testCases problem)).
Proof. unfold maxScoreOf, perTestPoints. rewrite foldl_add_sumZ. lia. Qed.

Lemma reduceFrom_earned (points : list Z) (testResults : list TestResult)
    (acc : Z) (idx : nat) :
  reduceFrom
    (fun sum r i => sum + (if tr_passed r then default 0 (points !! i) else 0))
    acc idx testResults
  = acc + sumZ (zip_with earned testResults (drop idx points)).
Proof.
  revert acc idx.
  induction testResults as [| r rs IH]; intros acc idx; cbn [reduceFrom].
  - unfold sumZ. simpl. lia.
  - rewrite IH. destruct (points !! idx) as [p |] eqn:Hp.
    + rewrite (drop_S _ _ _ Hp). unfold sumZ, earned. simpl.
      destruct (tr_passed r); lia.
    + apply lookup_ge_None in Hp.
      rewrite (drop_ge points idx) by lia.
      rewrite (drop_ge points (S idx)) by lia.
      rewrite !zip_with_nil_r. unfold sumZ. simpl.
      destruct (tr_passed r); lia.
Qed.

(** The score is the sum of the points of the test cases whose result, at
    the same index, passed. *)
Lemma scoreOf_sum (problem : Problem) (testResults : list TestResult) :
  scoreOf problem testResults
  = sumZ (zip_with earned testResults (map tc_points (p_testCases problem))).
Proof.
  unfold scoreOf. rewrite reduceFrom_earned. rewrite drop_0.
  unfold perTestPoints. lia.
Qed.

Lemma sumZ_earned_bounds (testResults : list TestResult) (points : list Z) :
  Forall (fun p => 0 <= p) points ->
  0 <= sumZ (zip_with earned testResults points) <= sumZ points.
Proof.
  intros Hpos. revert testResults.
  induction Hpos as [| p ps Hp _ IH]; intros [| r rs]; unfold sumZ in *; simpl;
    try lia.
  - assert (0 <= foldr Z.add 0 ps).
    { specialize (IH []). simpl in IH. lia. }
    lia.
  - specialize (IH rs).
    assert (0 <= earned r p <= p) by (unfold earned; destruct (tr_passed r); lia).
    lia.
Qed.

(** With points that are not negative, the score lies between 0 and maxScore. *)
Lemma scoreOf_bounds (problem : Problem) (testResults : list TestResult) :
  Forall (fun tc => 0 <= tc_points tc) (p_testCases problem) ->
  0 <= scoreOf problem testResults <= maxScoreOf problem.
Proof.
  intros Hpos. rewrite scoreOf_sum, maxScoreOf_sum.
  apply sumZ_earned_bounds. by apply Forall_fmap.
Qed.

(** Where maxScore is positive the derived status is the one of the
    specification. *)
Lemma statusOf_positive_maxScore (score maxScore : Z) :
  0 < maxScore -> 0 <= score <= maxScore ->
  (statusOf score maxScore = accepted <-> score = maxScore)
  /\ (statusOf score maxScore = partial <-> 0 < score < maxScore)
  /\ (statusOf score maxScore = attempted <-> score = 0).
Proof.
  intros Hmax Hscore. unfold statusOf.
  destruct (bool_decide (score = maxScore)) eqn:Heq.
  - apply bool_decide_eq_true in Heq.
    repeat split; intros; try discriminate; lia.
  - apply bool_decide_eq_false in Heq.
    destruct (0 <? score) eqn:Hpos.
    + apply Z.ltb_lt in Hpos. repeat split; intros; try discriminate; lia.
    + apply Z.ltb_ge in Hpos. repeat split; intros; try discriminate; lia.
Qed.

(** C3. For a problem without test cases and with flat points 100,
    [submitSolution] computes maxScore 0 and answers with it, while
    [joinContest] records maxScore 100 for the same problem. *)
Theorem C3_submitSolution_has_no_flat_points_fallback :
  p_testCases Samples.emptyProblem = []
  /\ p_points Samples.emptyProblem = 100
  /\ maxScoreOf Samples.emptyProblem = 0
  /\ pr_maxScore
       (initialProblemResult (Some Samples.emptyProblem)
          {| cp_problemId := 4%N; cp_order := 1; cp_points := 100 |}) = 100
  /\ (exists status score testResults time,
        fst (submitSolution noFaults (fun _ => Samples.doesNotCompile)
               Samples.contestsOfEmpty Samples.problems 50
               Samples.submissionToEmpty Samples.joinedEmptyState)
        = Graded status score 0 testResults time).
Proof.
  repeat split. do 4 eexists. vm_compute. reflexivity.
Qed.

(** C2. The same submission (it does not even compile) for the problem
    without test cases: score 0 equals maxScore 0 and the status answered is
    'accepted'. The entry persisted for the problem then holds score 0 of
    maxScore 100 with status 'accepted' and firstAcceptedAt set. *)
Theorem C2_zero_maxScore_is_accepted :
  statusOf 0 0 = accepted
  /\ fst (submitSolution noFaults (fun _ => Samples.doesNotCompile)
            Samples.contestsOfEmpty Samples.problems 50
            Samples.submissionToEmpty Samples.joinedEmptyState)
     = Graded accepted 0 0 [] 0
  /\ (st_contestResults
        (snd (submitSolution noFaults (fun _ => Samples.doesNotCompile)
                Samples.contestsOfEmpty Samples.problems 50
                Samples.submissionToEmpty Samples.joinedEmptyState))
        !! (7%N, 6%N))
     ≫= (fun cr => snd <$> findProblemResult cr 4%N)
     = Some {| pr_problemId := 4%N; pr_score := 0; pr_maxScore := 100;
               pr_timeSpent := 0; pr_submissionCount := 1;
               pr_firstAcceptedAt := Some 50; pr_status := accepted |}.
Proof. repeat split. Qed.

(** ** Errors of the contest-result update *)

(** When the body of [updateContestResult] throws, the error goes to the
    console, and the submission is not merged into the stored result: the
    collection is as before, unless no result existed, the creation
    succeeded and only the save failed; then the created result stays. *)
Lemma updateContestResult_failure faults contests problems now
    userId contestId problemId submission st message :
  fst (updateContestResult_try faults contests problems now userId contestId
         problemId submission st) = Throw message ->
  let st' := snd (updateContestResult faults contests problems now userId
                    contestId problemId submission st) in
  st_console st'
  = st_console st ++ [lit "Update contest result error:" ++ lit " " ++ message]
  /\ (st_contestResults st' = st_contestResults st
      \/ (st_contestResults st !! (userId, contestId) = None
          /\ faults update_ContestResult_create = None
          /\ faults update_ContestResult_save = Some message
          /\ st_contestResults st'
             = <[(userId, contestId) :=
                   newContestResult problems now userId contestId
                     (problemsOf (contests !! contestId))]>
                 (st_contestResults st))).
Proof.
  unfold updateContestResult, tryCatch, updateContestResult_try, bind,
    ContestResult_findOne, ContestResult_create, ContestResult_save, persist,
    await, throw, ret, console_error, problemsOf.
  destruct (faults update_ContestResult_findOne) as [m1 |]; cbn.
  { intros [= <-]. split; [reflexivity | left; reflexivity]. }
  destruct (st_contestResults st !! (userId, contestId)) as [existing |]; cbn.
  { destruct (faults update_ContestResult_save) as [m2 |]; cbn;
      [| discriminate].
    intros [= <-]. split; [reflexivity | left; reflexivity]. }
  destruct (faults update_Contest_findById) as [m3 |]; cbn.
  { intros [= <-]. split; [reflexivity | left; reflexivity]. }
  destruct (faults update_Problem_find) as [m4 |]; cbn.
  { intros [= <-]. split; [reflexivity | left; reflexivity]. }
  destruct (faults update_ContestResult_create) as [m5 |]; cbn.
  { intros [= <-]. split; [reflexivity | left; reflexivity]. }
  destruct (faults update_ContestResult_save) as [m6 |]; cbn;
    [| discriminate].
  intros [= <-]. split; [reflexivity |]. right. repeat split; reflexivity.
Qed.

(** A submission that passes the checks of [submitSolution] is graded, and
    the state is the one that [updateContestResult] leaves. *)
Lemma submitSolution_graded faults env contests problems now req st
    (contest : Contest) (i : nat) (problemInContest : ContestProblem)
    (problem : Problem) :
  faults submit_Contest_findById = None ->
  faults submit_Problem_findById = None ->
  contests !! req_contestId req = Some contest ->
  c_startTime contest <= now <= c_endTime contest ->
  list_find (fun p => cp_problemId p = req_problemId req) (c_problems contest)
  = Some (i, problemInContest) ->
  problems !! req_problemId req = Some problem ->
  submitSolution faults env contests problems now req st
  = (gradedResponse env req problem,
     snd (updateContestResult faults contests problems now (req_userId req)
            (req_contestId req) (req_problemId req)
            (summaryOf env req problem) st)).
Proof.
  intros Hf1 Hf2 Hcontest Hwindow Hin Hproblem.
  unfold submitSolution, submitSolution_try, bind, await.
  rewrite Hf1, Hcontest. cbn [ret throw].
  assert ((now <? c_startTime contest) || (c_endTime contest <? now) = false)
    as -> by lia.
  rewrite Hin. cbn [fmap option_fmap option_map snd ret].
  rewrite Hf2, Hproblem. cbn [ret].
  unfold tryCatch.
  pose proof (gradeAndRecord_response faults env contests problems now req
                problem st) as Hresponse. cbv zeta in Hresponse.
  unfold gradeAndRecord, bind in *.
  fold (summaryOf env req problem) in *.
  pose proof (updateContestResult_returns faults contests problems now
                (req_userId req) (req_contestId req) (req_problemId req)
                (summaryOf env req problem) st) as Hret.
  destruct (updateContestResult faults contests problems now (req_userId req)
              (req_contestId req) (req_problemId req)
              (summaryOf env req problem) st) as [r st'].
  simpl in Hret. subst r. reflexivity.
Qed.

(** C10 (as amended). For a graded submission whose contest-result update
    throws (reading, creating or saving fails): [updateContestResult]
    returns normally; [submitSolution] sends the success response with the
    computed status, score, maxScore and test results, the same response as
    without any database error; the error only reaches the console; and the
    submission is not merged into the stored ContestResult: the collection
    is as before, except that a result just created by this call (none
    existed, the creation succeeded, only the save failed) stays stored. *)
Theorem C10_update_errors_are_swallowed faults env contests problems now req st
    (contest : Contest) (i : nat) (problemInContest : ContestProblem)
    (problem : Problem) (message : jsstr) :
  faults submit_Contest_findById = None ->
  faults submit_Problem_findById = None ->
  contests !! req_contestId req = Some contest ->
  c_startTime contest <= now <= c_endTime contest ->
  list_find (fun p => cp_problemId p = req_problemId req) (c_problems contest)
  = Some (i, problemInContest) ->
  problems !! req_problemId req = Some problem ->
  fst (updateContestResult_try faults contests problems now (req_userId req)
         (req_contestId req) (req_problemId req) (summaryOf env req problem) st)
  = Throw message ->
  let answered := submitSolution faults env contests problems now req st in
  fst (updateContestResult faults contests problems now (req_userId req)
         (req_contestId req) (req_problemId req) (summaryOf env req problem) st)
  = Ok tt
  /\ fst answered = gradedResponse env req problem
  /\ fst answered = fst (submitSolution noFaults env contests problems now req st)
  /\ st_console (snd answered)
     = st_console st ++ [lit "Update contest result error:" ++ lit " " ++ message]
  /\ (st_contestResults (snd answered) = st_contestResults st
      \/ (st_contestResults st !! (req_userId req, req_contestId req) = None
          /\ faults update_ContestResult_create = None
          /\ faults update_ContestResult_save = Some message
          /\ st_contestResults (snd answered)
             = <[(req_userId req, req_contestId req) :=
                   newContestResult problems now (req_userId req)
                     (req_contestId req)
                     (problemsOf (contests !! req_contestId req))]>
                 (st_contestResults st))).
Proof.
  intros Hf1 Hf2 Hcontest Hwindow Hin Hproblem Hthrown. cbv zeta.
  rewrite (submitSolution_graded faults env contests problems now req st
             contest i problemInContest problem) by assumption.
  rewrite (submitSolution_graded noFaults env contests problems now req st
             contest i problemInContest problem) by (assumption || reflexivity).
  cbn [fst snd].
  split; [apply updateContestResult_returns |].
  split; [reflexivity |]. split; [reflexivity |].
  exact (updateContestResult_failure _ _ _ _ _ _ _ _ _ _ Hthrown).
Qed.

Lemma C10_update_errors_are_swallowed_witness :
  let env := fun _ : nat => Samples.prints (lit "3") 0 in
  let req := Samples.submission "python" "print(3)" 2%N in
  let answered :=
    submitSolution Samples.findOneFails env Samples.contests Samples.problems
      50 req Samples.joinedState in
  fst (updateContestResult_try Samples.findOneFails Samples.contests
         Samples.problems 50 7%N 3%N 2%N
         (summaryOf env req Samples.lateProblem) Samples.joinedState)
  = Throw (lit "connection lost")
  /\ fst answered
     = Graded partial 40 150
         (runCode env (lit "print(3)") (lit "python")
            (p_testCases Samples.lateProblem)) 12
  /\ st_contestResults (snd answered) = st_contestResults Samples.joinedState.
Proof.
  cbv zeta.
  destruct (C10_update_errors_are_swallowed Samples.findOneFails
              (fun _ => Samples.prints (lit "3") 0)
              Samples.contests Samples.problems 50
              (Samples.submission "python" "print(3)" 2%N) Samples.joinedState
              Samples.contest 1%nat
              {| cp_problemId := 2%N; cp_order := 2; cp_points := 100 |}
              Samples.lateProblem (lit "connection lost")
              eq_refl eq_refl eq_refl ltac:(simpl; lia) eq_refl eq_refl eq_refl)
    as (_ & Hanswer & _ & _ & Hstore).
  split; [reflexivity |]. split; [exact Hanswer |].
  destruct Hstore as [Hsame | (_ & _ & Hsave & _)];
    [exact Hsame | discriminate Hsave].
Defined.

(** C10, the claim as stated fails: no ContestResult is stored, creating one
    succeeds and saving it fails. The update has thrown, and the collection
    is not left as it was: it now holds the created result. *)
Lemma C10_created_result_counterexample :
  let env := fun _ : nat => Samples.prints (lit "3") 0 in
  let req := Samples.submission "python" "print(3)" 2%N in
  ~ ((exists message,
        fst (updateContestResult_try Samples.saveFails Samples.contests
               Samples.problems 50 7%N 3%N 2%N
               (summaryOf env req Samples.lateProblem) Samples.nothingStored)
        = Throw message) ->
     st_contestResults
       (snd (submitSolution Samples.saveFails env Samples.contests
               Samples.problems 50 req Samples.nothingStored))
     = st_contestResults Samples.nothingStored).
Proof.
  cbv zeta. intros H.
  specialize (H (ex_intro _ (lit "write conflict") eq_refl)).
  apply (f_equal (fun m => bool_decide (is_Some (m !! (7%N, 3%N))))) in H.
  vm_compute in H. discriminate H.
Qed.

(** * Further properties of the code *)

Import ContestHandlers FinalResults.

(** ** The ContestResult model *)

Lemma foldl_add_map {A} (f : A -> Z) (l : list A) (acc : Z) :
  foldl (fun s x => s + f x) acc l = acc + sumZ (map f l).
Proof.
  revert acc. induction l as [| x l IH]; intros acc; simpl.
  - unfold sumZ. simpl. lia.
  - rewrite IH. unfold sumZ. simpl. lia.
Qed.

Lemma sumZ_app (l k : list Z) : sumZ (l ++ k) = sumZ l + sumZ k.
Proof.
  induction l as [| x l IH]; unfold sumZ in *; simpl; [lia |].
  rewrite IH. lia.
Qed.

Lemma sumZ_map_insert {A} (f : A -> Z) (l : list A) (i : nat) (x y : A) :
  l !! i = Some x ->
  sumZ (map f (<[i := y]> l)) = sumZ (map f l) - f x + f y.
Proof.
  revert i. induction l as [| z l IH]; intros [| i] Hi; try discriminate.
  - injection Hi as ->. unfold sumZ. simpl. lia.
  - simpl in Hi. specialize (IH i Hi). unfold sumZ in *. simpl.
    change (list_fmap A Z f) with (map f) in *. lia.
Qed.

(** X1. After [updateProblemResult] the totals are recomputed from the
    entries, whatever totals were stored: totalTime is the sum of the
    previous entries' times plus the submitted time; totalScore is the sum
    of the previous entries' scores plus the improvement of the entry, or
    plus the whole score when the entry is new. *)
Theorem X1_totals_recomputed_from_entries (now : Date) (this : ContestResult)
    (problemId : ObjectId) (score timeSpent : Z) (status : Status)
    (isFirstAccept : bool) :
  let after :=
    updateProblemResult now this problemId score timeSpent status isFirstAccept in
  cr_totalTime after
  = sumZ (map pr_timeSpent (cr_problemResults this)) + timeSpent
  /\ cr_totalScore after
     = sumZ (map pr_score (cr_problemResults this))
       + match findProblemResult this problemId with
         | Some (_, problemResult) =>
             Z.max (pr_score problemResult) score - pr_score problemResult
         | None => score
         end.
Proof.
  cbv zeta. unfold updateProblemResult.
  destruct (findProblemResult this problemId) as [[i pr] |] eqn:Hfind;
    cbn [calculateTotals with_problemResults cr_totalTime cr_totalScore
         cr_problemResults]; rewrite !foldl_add_map.
  - unfold findProblemResult in Hfind.
    apply list_find_Some in Hfind as (Hi & _ & _).
    rewrite !(sumZ_map_insert _ _ _ _ _ Hi). cbn [mergeInto pr_timeSpent pr_score].
    lia.
  - rewrite !map_app, !sumZ_app. unfold sumZ. simpl. lia.
Qed.

(** X2. [updateProblemResult] keeps one entry per problem: the problem ids
    of the entries are the same list when the problem had an entry, and the
    same list with the problem appended when it had none. Ids without
    repetition stay without repetition. *)
Theorem X2_one_entry_per_problem (now : Date) (this : ContestResult)
    (problemId : ObjectId) (score timeSpent : Z) (status : Status)
    (isFirstAccept : bool) :
  let ids := map pr_problemId (cr_problemResults this) in
  let ids' :=
    map pr_problemId
      (cr_problemResults
         (updateProblemResult now this problemId score timeSpent status
            isFirstAccept)) in
  ids' = (if decide (problemId ∈ ids) then ids else ids ++ [problemId])
  /\ (NoDup ids -> NoDup ids').
Proof.
  cbv zeta.
  assert (map pr_problemId
            (cr_problemResults
               (updateProblemResult now this problemId score timeSpent status
                  isFirstAccept))
          = if decide (problemId ∈ map pr_problemId (cr_problemResults this))
            then map pr_problemId (cr_problemResults this)
            else map pr_problemId (cr_problemResults this) ++ [problemId]) as Hids.
  { destruct (findProblemResult this problemId) as [[i pr] |] eqn:Hfind.
    - rewrite (updateProblemResult_existing _ _ _ _ _ _ _ _ _ Hfind).
      unfold findProblemResult in Hfind.
      apply list_find_Some in Hfind as (Hi & Hid & _).
      rewrite decide_True.
      + change (map pr_problemId) with (fmap (M := list) pr_problemId).
        rewrite list_fmap_insert. apply list_insert_id.
        rewrite list_lookup_fmap, Hi. reflexivity.
      + rewrite <- Hid. apply (list_elem_of_fmap_2 pr_problemId).
        apply list_elem_of_lookup. eauto.
    - rewrite (updateProblemResult_missing _ _ _ _ _ _ _ Hfind).
      unfold findProblemResult in Hfind. apply list_find_None in Hfind.
      rewrite decide_False.
      + rewrite map_app. reflexivity.
      + intros Hin. apply list_elem_of_fmap in Hin as (pr & Hpr & Hin).
        rewrite Forall_forall in Hfind. apply (Hfind pr Hin). congruence. }
  split; [exact Hids |].
  intros Hnodup. rewrite Hids. case_decide as Hin; [exact Hnodup |].
  apply NoDup_app. split; [exact Hnodup |]. split.
  - intros q Hq Hq'. apply list_elem_of_singleton in Hq'. congruence.
  - apply NoDup_singleton.
Qed.

(** ** The code runner *)

Lemma byteLength_bounds (s : jsstr) :
  (Z.of_nat (length s) <= byteLength s <= 3 * Z.of_nat (length s))
  /\ forall c,
       Z.of_nat (length (c :: s)) <= byteLength (c :: s)
       <= 3 * Z.of_nat (length (c :: s)).
Proof.
  induction s as [| d s [IHs IHcons]].
  - split; [simpl; lia |]. intros c. cbn [byteLength length].
    destruct (c <? 128)%N, (c <? 2048)%N, (isHighSurrogate c); simpl; lia.
  - split; [apply IHcons |]. intros c.
    specialize (IHcons d).
    change (byteLength (c :: d :: s)) with
      (if (c <? 128)%N then 1 + byteLength (d :: s)
       else if (c <? 2048)%N then 2 + byteLength (d :: s)
       else if isHighSurrogate c then
         (if isLowSurrogate d then 4 + byteLength s
          else 3 + byteLength (d :: s))
       else 3 + byteLength (d :: s)).
    cbn [length] in *.
    destruct (c <? 128)%N, (c <? 2048)%N, (isHighSurrogate c),
      (isLowSurrogate d); lia.
Qed.

(** X3. The memory figure of a result is 0 exactly when the output is
    empty; any other output counts for at least 1, and for at most the
    number of kilobytes of three bytes per UTF-16 code unit, rounded up. *)
Theorem X3_memory_estimate_bounds (output : jsstr) :
  (estimateMemoryUsage output = 0 <-> output = [])
  /\ (output <> [] -> 1 <= estimateMemoryUsage output)
  /\ estimateMemoryUsage output <= (3 * Z.of_nat (length output) + 1023) / 1024.
Proof.
  unfold estimateMemoryUsage.
  destruct (byteLength_bounds output) as [[Hlow Hhigh] _].
  assert (output <> [] -> 1 <= (byteLength output + 1023) / 1024) as Hpos.
  { intros Hne. destruct output as [| c t]; [congruence |].
    cbn [length] in Hlow. apply Z.div_le_lower_bound; lia. }
  split; [| split].
  - split.
    + intros Hzero. destruct output as [| c t]; [reflexivity |].
      assert (1 <= (byteLength (c :: t) + 1023) / 1024) by (apply Hpos; congruence).
      lia.
    + intros ->. reflexivity.
  - exact Hpos.
  - apply Z.div_le_mono; lia.
Qed.

(** What a run leaves in its result, by the way it ended. *)
Lemma runOne_outcome (code language : jsstr)
    (testCase : TestCase) (w : Execution) :
  let r := runOne code language testCase w in
  (ranToExitZero language w = false ->
   tr_passed r = false /\ tr_output r = [] /\ tr_executionTime r = 0
   /\ tr_memoryUsed r = 0)
  /\ (ranToExitZero language w = true ->
      tr_output r = proc_stdout (ex_run w)
      /\ tr_error r = proc_stderr (ex_run w)
      /\ tr_executionTime r = ex_elapsed w
      /\ tr_memoryUsed r = estimateMemoryUsage (proc_stdout (ex_run w))).
Proof.
  cbv zeta.
  unfold runOne, executeTestCase, ranToExitZero, supported, compiled,
    runPython, runJavaScript, runCpp, runJava, settleRun.
  by_language language;
    destruct (ex_write w); by_process_end (ex_compile w);
    by_process_end (proc_end (ex_run w)); cbn;
    (split; intros; [try discriminate | try discriminate]); repeat split.
Qed.


Lemma runOne_executionTime (code language : jsstr) (testCase : TestCase)
    (w : Execution) :
  tr_executionTime (runOne code language testCase w) = countedTime language w.
Proof.
  unfold countedTime.
  destruct (runOne_outcome code language testCase w) as [Hno Hyes].
  destruct (ranToExitZero language w).
  - by destruct (Hyes eq_refl) as (_ & _ & -> & _).
  - by destruct (Hno eq_refl) as (_ & _ & -> & _).
Qed.

(** X5. The total execution time of a submission adds up the wall-clock
    times of the runs that ended with exit code 0 only: a run that crashed,
    timed out or did not compile counts for 0, however long it took. *)
Theorem X5_total_time_counts_completed_runs (env : nat -> Execution)
    (code language : jsstr) (testCases : list TestCase) :
  totalExecutionTimeOf (runCode env code language testCases)
  = sumZ (imap (fun i _ => countedTime language (env i)) testCases).
Proof.
  unfold totalExecutionTimeOf. rewrite foldl_add_map, Z.add_0_l.
  f_equal. unfold runCode.
  change (map tr_executionTime) with (fmap (M := list) tr_executionTime).
  rewrite fmap_imap. apply imap_ext. intros i testCase _. simpl.
  apply runOne_executionTime.
Qed.

Lemma runOne_unsupported (code language : jsstr) (testCase : TestCase)
    (w : Execution) :
  supported language = false -> ex_write w = None ->
  runOne code language testCase w = unsupportedResult language.
Proof.
  unfold supported, runOne, executeTestCase.
  by_language language; cbn; try discriminate.
  intros _ ->. reflexivity.
Qed.

Lemma imap_replicate {A B} (f : nat -> A -> B) (l : list A) (y : B) :
  (forall i x, l !! i = Some x -> f i x = y) ->
  imap f l = replicate (length l) y.
Proof.
  intros Hf. apply list_eq. intros i. rewrite list_lookup_imap.
  destruct (l !! i) as [x |] eqn:Hi; simpl.
  - rewrite lookup_replicate_2 by (eapply lookup_lt_Some; eassumption).
    f_equal. by apply Hf.
  - symmetry. apply lookup_replicate_None. by apply lookup_ge_None.
Qed.

(** X6. A submission in a language other than the four is not rejected:
    when the source files can be written, every test case gets the same
    failed result with the error 'Unsupported language: ' followed by the
    language, no process outcome matters, and the submission is answered as
    graded with score 0. *)
Theorem X6_unsupported_language_is_graded_zero faults (env : nat -> Execution)
    contests problems now (req : Request) (problem : Problem) (st : State) :
  supported (req_language req) = false ->
  (forall i : nat, (i < length (p_testCases problem))%nat ->
                   ex_write (env i) = None) ->
  let failed :=
    replicate (length (p_testCases problem))
      (unsupportedResult (req_language req)) in
  runCode env (combineWithHarness (req_code req) (req_language req) problem)
    (req_language req) (p_testCases problem) = failed
  /\ fst (gradeAndRecord faults env contests problems now req problem st)
     = Ok (Graded (statusOf 0 (maxScoreOf problem)) 0 (maxScoreOf problem)
             failed 0).
Proof.
  intros Hlang Hwrite. cbv zeta.
  assert (runCode env (combineWithHarness (req_code req) (req_language req) problem)
            (req_language req) (p_testCases problem)
          = replicate (length (p_testCases problem))
              (unsupportedResult (req_language req))) as Hrun.
  { unfold runCode. apply imap_replicate. intros i testCase Hi.
    apply runOne_unsupported; [exact Hlang |].
    apply Hwrite. eapply lookup_lt_Some; eassumption. }
  split; [exact Hrun |].
  rewrite gradeAndRecord_response. cbv zeta. rewrite Hrun.
  assert (scoreOf problem
            (replicate (length (p_testCases problem))
               (unsupportedResult (req_language req))) = 0) as ->.
  { unfold scoreOf. apply reduceFrom_none_passed.
    apply Forall_replicate. reflexivity. }
  rewrite totalExecutionTimeOf_replicate_zero by reflexivity.
  reflexivity.
Qed.

Lemma X6_unsupported_language_is_graded_zero_witness :
  supported (lit "ruby") = false
  /\ runCode (fun _ => MoreSamples.idle)
       (combineWithHarness (lit "puts 3") (lit "ruby") Samples.lateProblem)
       (lit "ruby") (p_testCases Samples.lateProblem)
     = replicate 3 (unsupportedResult (lit "ruby"))
  /\ fst (gradeAndRecord noFaults (fun _ => MoreSamples.idle) Samples.contests
            Samples.problems 50 MoreSamples.rubySubmission Samples.lateProblem
            Samples.joinedState)
     = Ok (Graded attempted 0 150 (replicate 3 (unsupportedResult (lit "ruby"))) 0).
Proof.
  split; [reflexivity |].
  exact (X6_unsupported_language_is_graded_zero noFaults
           (fun _ => MoreSamples.idle) Samples.contests Samples.problems 50
           MoreSamples.rubySubmission Samples.lateProblem Samples.joinedState
           eq_refl (fun _ _ => eq_refl)).
Defined.

(** ** The harness composer *)

Lemma trimStart_head (s : jsstr) (c : N) (t : jsstr) :
  trimStart s = c :: t -> isWhiteSpace c = false.
Proof.
  induction s as [| d s IH]; simpl; [discriminate |].
  destruct (isWhiteSpace d) eqn:Hd; [exact IH |].
  intros [= <- _]. exact Hd.
Qed.

Lemma trimStart_nil_iff (s : jsstr) : trimStart s = [] <-> allWhiteSpace s.
Proof.
  split; [apply trimStart_nil |]. intros Hws.
  rewrite <- (app_nil_r s). by rewrite trimStart_ws.
Qed.

(** Trimming leaves nothing exactly of a string of white space. *)
Lemma trim_nil_iff (s : jsstr) : trim s = [] <-> allWhiteSpace s.
Proof.
  unfold trim, trimEnd. rewrite <- trimStart_nil_iff. split.
  - intros Hnil. apply (f_equal reverse) in Hnil.
    rewrite reverse_involutive in Hnil. cbn in Hnil.
    apply trimStart_nil_iff in Hnil.
    destruct (trimStart s) as [| c t] eqn:Hs; [reflexivity |].
    apply trimStart_head in Hs.
    apply Forall_reverse in Hnil. rewrite reverse_involutive in Hnil.
    apply Forall_cons in Hnil as [Hc _]. congruence.
  - intros ->. reflexivity.
Qed.

Lemma resolveHarness_trim (language : jsstr) (problem : Problem) :
  resolveHarness language problem = trim (harnessText language problem).
Proof.
  unfold resolveHarness, harnessText. by destruct (rawHarness problem).
Qed.

Lemma falsy_nil (s : jsstr) : falsy s = true <-> s = [].
Proof. destruct s; simpl; split; congruence. Qed.

(** X7. Whatever the language and the problem, the composed source starts
    with the user's code: the harness only ever follows it. *)
Theorem X7_user_code_is_a_prefix (userCode language : jsstr) (problem : Problem) :
  userCode `prefix_of` combineWithHarness userCode language problem.
Proof.
  unfold combineWithHarness.
  destruct (falsy (resolveHarness language problem)); [reflexivity |].
  by_language language; cbn; solve [reflexivity | apply prefix_app_r; reflexivity].
Qed.

(** X8. The composed source is the user's code unchanged exactly when the
    harness text of the problem for that language is missing, empty or
    white space only, or the language is not one of the four. *)
Theorem X8_harness_dropped_iff (userCode language : jsstr) (problem : Problem) :
  combineWithHarness userCode language problem = userCode
  <-> allWhiteSpace (harnessText language problem) \/ supported language = false.
Proof.
  rewrite <- trim_nil_iff, <- resolveHarness_trim, <- falsy_nil.
  unfold combineWithHarness, supported.
  destruct (falsy (resolveHarness language problem)); [by intuition |].
  by_language language; cbn;
    (split;
     [ intros Heq; try (right; reflexivity);
       apply (f_equal length) in Heq; rewrite !length_app in Heq;
       cbn in Heq; lia
     | intros [? | ?]; try discriminate; reflexivity ]).
Qed.

(** X9. White space around the stored harness text does not change the
    composed source: the harness is appended trimmed. *)
Theorem X9_harness_is_appended_trimmed (userCode language : jsstr)
    (problem problem' : Problem) (before after : jsstr) :
  allWhiteSpace before -> allWhiteSpace after ->
  harnessText language problem
  = before ++ harnessText language problem' ++ after ->
  combineWithHarness userCode language problem
  = combineWithHarness userCode language problem'.
Proof.
  intros Hbefore Hafter Htext. unfold combineWithHarness.
  rewrite !resolveHarness_trim, Htext.
  by rewrite (trim_ignores_surrounding _ _ _ Hbefore Hafter).
Qed.

Lemma X9_harness_is_appended_trimmed_witness :
  harnessText (lit "python") Samples.harnessed
  = lit " " ++ harnessText (lit "python") MoreSamples.harnessedTight ++ lit " "
  /\ combineWithHarness (lit "def f(): pass") (lit "python") Samples.harnessed
     = combineWithHarness (lit "def f(): pass") (lit "python")
         MoreSamples.harnessedTight.
Proof.
  split; [reflexivity |].
  apply (X9_harness_is_appended_trimmed (lit "def f(): pass") (lit "python")
           Samples.harnessed MoreSamples.harnessedTight (lit " ") (lit " ")).
  - repeat constructor.
  - repeat constructor.
  - reflexivity.
Defined.

(** ** submitSolution *)


Lemma updateProblemResult_ids now this problemId score timeSpent status fa :
  cr_userId (updateProblemResult now this problemId score timeSpent status fa)
  = cr_userId this
  /\ cr_contestId (updateProblemResult now this problemId score timeSpent status fa)
     = cr_contestId this.
Proof.
  unfold updateProblemResult.
  destruct (findProblemResult this problemId) as [[i pr] |]; split; reflexivity.
Qed.

(** The status that [updateContestResult] derives again is the one that
    [submitSolution] derived. *)
Lemma status_derived_again (score maxScore : Z) :
  (if bool_decide (statusOf score maxScore = accepted) then accepted
   else if 0 <? score then partial else attempted)
  = statusOf score maxScore.
Proof.
  unfold statusOf.
  destruct (bool_decide (score = maxScore)); [reflexivity |].
  destruct (0 <? score); reflexivity.
Qed.

(** Without database errors and with a stored result, the update saves the
    merged result under the same key. *)
Lemma updateContestResult_existing_state contests problems now
    userId contestId problemId submission st contestResult :
  st_contestResults st !! (userId, contestId) = Some contestResult ->
  cr_userId contestResult = userId -> cr_contestId contestResult = contestId ->
  snd (updateContestResult noFaults contests problems now userId contestId
         problemId submission st)
  = {| st_contestResults :=
         <[(userId, contestId) :=
             updateProblemResult now contestResult problemId
               (sub_score submission) (sub_totalExecutionTime submission)
               (if bool_decide (sub_status submission = accepted) then accepted
                else if 0 <? sub_score submission then partial else attempted)
               (bool_decide (sub_status submission = accepted))]>
           (st_contestResults st);
       st_console := st_console st |}.
Proof.
  intros Hfound Huser Hcontest.
  unfold updateContestResult, tryCatch, updateContestResult_try, bind,
    ContestResult_findOne, ContestResult_save, persist, await, noFaults, ret.
  rewrite Hfound. cbn -[updateProblemResult].
  match goal with
  | |- context [updateProblemResult ?n ?t ?p ?s ?ts ?stt ?fa] =>
      destruct (updateProblemResult_ids n t p s ts stt fa) as [-> ->]
  end.
  rewrite Huser, Hcontest. reflexivity.
Qed.

(** Without database errors and without a stored result, the update creates
    the result of the contest's problems and saves the merged one. *)
Lemma updateContestResult_created_state contests problems now
    userId contestId problemId submission st :
  st_contestResults st !! (userId, contestId) = None ->
  snd (updateContestResult noFaults contests problems now userId contestId
         problemId submission st)
  = {| st_contestResults :=
         <[(userId, contestId) :=
             updateProblemResult now
               (newContestResult problems now userId contestId
                  (problemsOf (contests !! contestId)))
               problemId
               (sub_score submission) (sub_totalExecutionTime submission)
               (if bool_decide (sub_status submission = accepted) then accepted
                else if 0 <? sub_score submission then partial else attempted)
               (bool_decide (sub_status submission = accepted))]>
           (st_contestResults st);
       st_console := st_console st |}.
Proof.
  intros Hfound.
  unfold updateContestResult, tryCatch, updateContestResult_try, bind,
    ContestResult_findOne, ContestResult_create, ContestResult_save, persist,
    await, noFaults, ret, problemsOf.
  rewrite Hfound. cbn -[updateProblemResult newContestResult].
  match goal with
  | |- context [updateProblemResult ?n ?t ?p ?s ?ts ?stt ?fa] =>
      destruct (updateProblemResult_ids n t p s ts stt fa) as [-> ->]
  end.
  cbn -[updateProblemResult]. by rewrite insert_insert_eq.
Qed.

(** X11. A graded submission for a problem that has an entry in the user's
    stored result, without database errors: the only change of the store is
    the user's result; the entry stays in place and keeps its maxScore; its
    status is the status answered; its score is the larger of the previous
    and the answered score; its time grows by the total execution time
    answered; it counts one more submission; firstAcceptedAt is set to the
    time of the request when the answer is 'accepted' and it was not set,
    and is kept otherwise. *)
Theorem X11_graded_submission_is_merged (env : nat -> Execution)
    contests problems now (req : Request) (st : State)
    (contest : Contest) (i : nat) (problemInContest : ContestProblem)
    (problem : Problem) (contestResult : ContestResult) (j : nat)
    (entry : ProblemResult) :
  contests !! req_contestId req = Some contest ->
  c_startTime contest <= now <= c_endTime contest ->
  list_find (fun p => cp_problemId p = req_problemId req) (c_problems contest)
  = Some (i, problemInContest) ->
  problems !! req_problemId req = Some problem ->
  st_contestResults st !! (req_userId req, req_contestId req)
  = Some contestResult ->
  cr_userId contestResult = req_userId req ->
  cr_contestId contestResult = req_contestId req ->
  findProblemResult contestResult (req_problemId req) = Some (j, entry) ->
  exists status score maxScore testResults time contestResult' entry',
    submitSolution noFaults env contests problems now req st
    = (Graded status score maxScore testResults time,
       {| st_contestResults :=
            <[(req_userId req, req_contestId req) := contestResult']>
              (st_contestResults st);
          st_console := st_console st |})
    /\ findProblemResult contestResult' (req_problemId req) = Some (j, entry')
    /\ pr_maxScore entry' = pr_maxScore entry
    /\ pr_status entry' = status
    /\ pr_score entry' = Z.max (pr_score entry) score
    /\ pr_timeSpent entry' = pr_timeSpent entry + time
    /\ pr_submissionCount entry' = pr_submissionCount entry + 1
    /\ pr_firstAcceptedAt entry'
       = match pr_firstAcceptedAt entry with
         | Some first => Some first
         | None => if bool_decide (status = accepted) then Some now else None
         end.
Proof.
  intros Hcontest Hwindow Hin Hproblem Hstored Huser Hcid Hentry.
  rewrite (submitSolution_graded noFaults env contests problems now req st
             contest i problemInContest problem) by (assumption || reflexivity).
  rewrite (updateContestResult_existing_state _ _ _ _ _ _ _ _ _ Hstored Huser Hcid).
  unfold gradedResponse, summaryOf.
  cbn [sub_score sub_totalExecutionTime sub_status].
  rewrite status_derived_again.
  do 7 eexists. split; [reflexivity |].
  split; [apply find_after_update; exact Hentry |].
  cbn [mergeInto pr_maxScore pr_status pr_score pr_timeSpent pr_submissionCount
       pr_firstAcceptedAt].
  repeat split.
  destruct (pr_firstAcceptedAt entry) as [first |]; cbn.
  - by rewrite andb_false_r.
  - by rewrite andb_true_r.
Qed.

Lemma X11_graded_submission_is_merged_witness :
  findProblemResult MoreSamples.joinedBoth 2%N
  = Some (1%nat,
          {| pr_problemId := 2%N; pr_score := 0; pr_maxScore := 150;
             pr_timeSpent := 0; pr_submissionCount := 0;
             pr_firstAcceptedAt := None; pr_status := not_attempted |})
  /\ exists status score maxScore testResults time contestResult' entry',
       submitSolution noFaults (fun _ => MoreSamples.idle) Samples.contests
         Samples.problems 50 MoreSamples.printsThree MoreSamples.joinedBothState
       = (Graded status score maxScore testResults time,
          {| st_contestResults :=
               <[(7%N, 3%N) := contestResult']>
                 (st_contestResults MoreSamples.joinedBothState);
             st_console := [] |})
       /\ findProblemResult contestResult' 2%N = Some (1%nat, entry')
       /\ pr_maxScore entry' = 150
       /\ pr_status entry' = status
       /\ pr_score entry' = Z.max 0 score
       /\ pr_timeSpent entry' = 0 + time
       /\ pr_submissionCount entry' = 0 + 1
       /\ pr_firstAcceptedAt entry'
          = if bool_decide (status = accepted) then Some 50 else None.
Proof.
  split; [reflexivity |].
  exact (X11_graded_submission_is_merged (fun _ => MoreSamples.idle)
           Samples.contests Samples.problems 50 MoreSamples.printsThree
           MoreSamples.joinedBothState Samples.contest 1%nat
           {| cp_problemId := 2%N; cp_order := 2; cp_points := 100 |}
           Samples.lateProblem MoreSamples.joinedBoth 1%nat
           {| pr_problemId := 2%N; pr_score := 0; pr_maxScore := 150;
              pr_timeSpent := 0; pr_submissionCount := 0;
              pr_firstAcceptedAt := None; pr_status := not_attempted |}
           eq_refl ltac:(simpl; lia) eq_refl eq_refl eq_refl eq_refl eq_refl
           eq_refl).
Defined.

(** ** joinContest *)

(** X12. [joinContest] either fails and leaves the stored contest results
    as they were, or it stores exactly one new result for the user and the
    contest, and writes nothing to the console. It succeeds only for a
    contest that exists, at a time inside the contest's window, and for a
    user who had no result for the contest: a stored result is never
    replaced by joining again. *)
Theorem X12_join_stores_one_new_result (faults : JoinCall -> option jsstr)
    contests problems (problemDocs : list Problem) now
    (userId contestId : ObjectId) (st : State) :
  let answered :=
    joinContest faults contests problems problemDocs now userId contestId st in
  match fst answered with
  | Joined contestResult =>
      (exists contest,
         contests !! contestId = Some contest
         /\ c_startTime contest <= now <= c_endTime contest)
      /\ st_contestResults st !! (userId, contestId) = None
      /\ cr_userId contestResult = userId
      /\ cr_contestId contestResult = contestId
      /\ snd answered
         = {| st_contestResults :=
                <[(userId, contestId) := contestResult]> (st_contestResults st);
              st_console := st_console st |}
  | JoinFailure _ _ _ =>
      st_contestResults (snd answered) = st_contestResults st
  end.
Proof.
  cbv zeta.
  unfold joinContest, joinContest_try, bind, attempt, writeResult, throw, ret,
    console_error.
  destruct (faults join_Contest_findById); cbn; [reflexivity |].
  destruct (contests !! contestId) as [contest |]; cbn; [| reflexivity].
  destruct (now <? c_startTime contest) eqn:Hstart; cbn; [reflexivity |].
  destruct (c_endTime contest <? now) eqn:Hend; cbn; [reflexivity |].
  destruct (faults join_ContestResult_findOne); cbn; [reflexivity |].
  destruct (st_contestResults st !! (userId, contestId)) eqn:Hstored; cbn;
    [reflexivity |].
  assert ((exists contest0,
             Some contest = Some contest0
             /\ c_startTime contest0 <= now <= c_endTime contest0)) as Hwindow
    by (exists contest; split; [reflexivity | lia]).
  destruct (c_problems contest) as [| p ps]; cbn.
  - destruct (faults join_Problem_find_all); cbn; [reflexivity |].
    destruct (faults join_Problem_find); cbn; [reflexivity |].
    destruct (faults join_ContestResult_create); cbn; [reflexivity |].
    repeat split; assumption.
  - destruct (faults join_Problem_find); cbn; [reflexivity |].
    destruct (faults join_ContestResult_create); cbn; [reflexivity |].
    repeat split; assumption.
Qed.


(** The maxScore that [joinContest] records for a problem. *)
Lemma initialProblemResult_maxScore (full : option Problem) (p : ContestProblem) :
  pr_maxScore (initialProblemResult full p)
  = match full with
    | Some problem =>
        if (0 <? length (p_testCases problem))%nat
        then sumZ (map tc_points (p_testCases problem))
        else p_points problem
    | None => cp_points p
    end.
Proof.
  unfold initialProblemResult. cbn [pr_maxScore].
  destruct full as [problem |]; [| reflexivity].
  destruct (0 <? length (p_testCases problem))%nat; [| reflexivity].
  rewrite foldl_add_map. lia.
Qed.



(** ** Submitting without having joined *)

Lemma find_in_newContestResult problems now userId contestId
    (allProblems : list ContestProblem) (problemId : ObjectId) (i : nat)
    (p : ContestProblem) :
  list_find (fun q => cp_problemId q = problemId) allProblems = Some (i, p) ->
  findProblemResult (newContestResult problems now userId contestId allProblems)
    problemId
  = Some (i, initialProblemResult (problems !! cp_problemId p) p).
Proof.
  intros Hfind. apply list_find_Some in Hfind as (Hi & Hid & Hbefore).
  unfold findProblemResult. cbn [newContestResult cr_problemResults].
  change (map ?f ?l) with (f <$> l).
  apply list_find_Some. split; [| split].
  - rewrite list_lookup_fmap, Hi. reflexivity.
  - exact Hid.
  - intros j entry Hj Hlt. rewrite list_lookup_fmap in Hj.
    destruct (allProblems !! j) as [q |] eqn:Hq; [| discriminate].
    injection Hj as <-. exact (Hbefore j q Hq Hlt).
Qed.

(** X14. A graded submission by a user who has no stored result for the
    contest, without database errors: the result is created with one entry
    per problem of the contest and the submission is merged into the entry
    of its problem, which is found at the problem's place in the contest.
    The maxScore of that entry is the sum of the points of the problem's
    test cases, or the problem's flat points when it has none: the default
    of 100 for a missing entry is not used. The entry counts one
    submission. *)
Theorem X14_first_submission_creates_the_result (env : nat -> Execution)
    contests problems now (req : Request) (st : State)
    (contest : Contest) (i : nat) (problemInContest : ContestProblem)
    (problem : Problem) :
  contests !! req_contestId req = Some contest ->
  c_startTime contest <= now <= c_endTime contest ->
  list_find (fun p => cp_problemId p = req_problemId req) (c_problems contest)
  = Some (i, problemInContest) ->
  problems !! req_problemId req = Some problem ->
  st_contestResults st !! (req_userId req, req_contestId req) = None ->
  exists contestResult' entry',
    snd (submitSolution noFaults env contests problems now req st)
    = {| st_contestResults :=
           <[(req_userId req, req_contestId req) := contestResult']>
             (st_contestResults st);
         st_console := st_console st |}
    /\ map pr_problemId (cr_problemResults contestResult')
       = map cp_problemId (c_problems contest)
    /\ findProblemResult contestResult' (req_problemId req) = Some (i, entry')
    /\ pr_maxScore entry'
       = (if (0 <? length (p_testCases problem))%nat
          then sumZ (map tc_points (p_testCases problem))
          else p_points problem)
    /\ pr_submissionCount entry' = 1.
Proof.
  intros Hcontest Hwindow Hin Hproblem Hnone.
  rewrite (submitSolution_graded noFaults env contests problems now req st
             contest i problemInContest problem) by (assumption || reflexivity).
  cbn [snd]. rewrite (updateContestResult_created_state _ _ _ _ _ _ _ _ Hnone).
  rewrite Hcontest. cbn [problemsOf].
  pose proof (find_in_newContestResult problems now (req_userId req)
                (req_contestId req) _ _ _ _ Hin) as Hentry.
  do 2 eexists. split; [reflexivity |].
  split; [| split; [apply find_after_update; exact Hentry |]].
  - rewrite (updateProblemResult_existing _ _ _ _ _ _ _ _ _ Hentry).
    change (map pr_problemId) with (fmap (M := list) pr_problemId).
    rewrite list_fmap_insert. cbn [newContestResult cr_problemResults].
    change (map ?f ?l) with (f <$> l). rewrite <- list_fmap_compose.
    apply list_insert_id. rewrite list_lookup_fmap.
    unfold findProblemResult in Hentry.
    apply list_find_Some in Hentry as (Hi & _ & _).
    cbn [newContestResult cr_problemResults] in Hi.
    change (map ?f ?l) with (f <$> l) in Hi.
    rewrite list_lookup_fmap in Hi.
    destruct (c_problems contest !! i) as [q |]; [| discriminate].
    injection Hi as Hq. cbn. rewrite <- Hq. reflexivity.
  - cbn [mergeInto pr_maxScore pr_submissionCount].
    apply list_find_Some in Hin as (_ & Hid & _). rewrite Hid, Hproblem.
    split; [| reflexivity].
    exact (initialProblemResult_maxScore (Some problem) problemInContest).
Qed.

Lemma X14_first_submission_creates_the_result_witness :
  st_contestResults Samples.nothingStored !! (7%N, 3%N) = None
  /\ exists contestResult' entry',
       snd (submitSolution noFaults (fun _ => MoreSamples.idle) Samples.contests
              Samples.problems 50 MoreSamples.printsThree Samples.nothingStored)
       = {| st_contestResults :=
              <[(7%N, 3%N) := contestResult']>
                (st_contestResults Samples.nothingStored);
            st_console := [] |}
       /\ map pr_problemId (cr_problemResults contestResult') = [1%N; 2%N]
       /\ findProblemResult contestResult' 2%N = Some (1%nat, entry')
       /\ pr_maxScore entry' = 150
       /\ pr_submissionCount entry' = 1.
Proof.
  split; [reflexivity |].
  exact (X14_first_submission_creates_the_result (fun _ => MoreSamples.idle)
           Samples.contests Samples.problems 50 MoreSamples.printsThree
           Samples.nothingStored Samples.contest 1%nat
           {| cp_problemId := 2%N; cp_order := 2; cp_points := 100 |}
           Samples.lateProblem eq_refl ltac:(simpl; lia) eq_refl eq_refl eq_refl).
Defined.

(** Without errors, joining a running contest with a problem list stores
    the fresh result of that list. *)
Lemma joinContest_state contests problems (problemDocs : list Problem) now
    (userId contestId : ObjectId) (st : State) (contest : Contest) :
  contests !! contestId = Some contest ->
  c_startTime contest <= now <= c_endTime contest ->
  c_problems contest <> [] ->
  st_contestResults st !! (userId, contestId) = None ->
  snd (joinContest (fun _ => None) contests problems problemDocs now userId
         contestId st)
  = {| st_contestResults :=
         <[(userId, contestId) :=
             newContestResult problems now userId contestId (c_problems contest)]>
           (st_contestResults st);
       st_console := st_console st |}.
Proof.
  intros Hcontest Hwindow Hproblems Hnone.
  unfold joinContest, joinContest_try, bind, attempt, writeResult, ret.
  rewrite Hcontest.
  assert ((now <? c_startTime contest) = false) as -> by lia.
  assert ((c_endTime contest <? now) = false) as -> by lia.
  rewrite Hnone.
  destruct (c_problems contest) as [| p ps]; [congruence |]. reflexivity.
Qed.

(** X15. Submitting without having joined gives the same answer and leaves
    the same state as joining first and then submitting (at the same time
    and without database errors): the result that the submission creates is
    the one that joining creates. *)
Theorem X15_joining_first_changes_nothing (env : nat -> Execution)
    contests problems (problemDocs : list Problem) now (req : Request)
    (st : State) (contest : Contest) (i : nat)
    (problemInContest : ContestProblem) (problem : Problem) :
  contests !! req_contestId req = Some contest ->
  c_startTime contest <= now <= c_endTime contest ->
  list_find (fun p => cp_problemId p = req_problemId req) (c_problems contest)
  = Some (i, problemInContest) ->
  problems !! req_problemId req = Some problem ->
  st_contestResults st !! (req_userId req, req_contestId req) = None ->
  submitSolution noFaults env contests problems now req
    (snd (joinContest (fun _ => None) contests problems problemDocs now
            (req_userId req) (req_contestId req) st))
  = submitSolution noFaults env contests problems now req st.
Proof.
  intros Hcontest Hwindow Hin Hproblem Hnone.
  assert (c_problems contest <> []) as Hproblems.
  { intros Hnil. rewrite Hnil in Hin. discriminate Hin. }
  rewrite (joinContest_state _ _ _ _ _ _ _ _ Hcontest Hwindow Hproblems Hnone).
  rewrite !(submitSolution_graded noFaults env contests problems now req _
              contest i problemInContest problem) by (assumption || reflexivity).
  f_equal.
  rewrite (updateContestResult_created_state _ _ _ _ _ _ _ _ Hnone).
  rewrite (updateContestResult_existing_state contests problems now
             (req_userId req) (req_contestId req) (req_problemId req)
             (summaryOf env req problem) _
             (newContestResult problems now (req_userId req) (req_contestId req)
                (c_problems contest)));
    [| apply lookup_insert_eq | reflexivity | reflexivity].
  cbn [st_contestResults st_console].
  rewrite insert_insert_eq, Hcontest. reflexivity.
Qed.

Lemma X15_joining_first_changes_nothing_witness :
  st_contestResults Samples.nothingStored !! (7%N, 3%N) = None
  /\ submitSolution noFaults (fun _ => MoreSamples.idle) Samples.contests
       Samples.problems 50 MoreSamples.printsThree
       (snd (joinContest (fun _ => None) Samples.contests Samples.problems []
               50 7%N 3%N Samples.nothingStored))
     = submitSolution noFaults (fun _ => MoreSamples.idle) Samples.contests
         Samples.problems 50 MoreSamples.printsThree Samples.nothingStored.
Proof.
  split; [reflexivity |].
  exact (X15_joining_first_changes_nothing (fun _ => MoreSamples.idle)
           Samples.contests Samples.problems [] 50 MoreSamples.printsThree
           Samples.nothingStored Samples.contest 1%nat
           {| cp_problemId := 2%N; cp_order := 2; cp_points := 100 |}
           Samples.lateProblem eq_refl ltac:(simpl; lia) eq_refl eq_refl eq_refl).
Defined.

(** ** When a submission is accepted *)

Lemma sumZ_imap_le {A} (f g : nat -> A -> Z) (l : list A) :
  (forall i x, l !! i = Some x -> f i x <= g i x) ->
  sumZ (imap f l) <= sumZ (imap g l).
Proof.
  revert f g. induction l as [| x l IH]; intros f g Hle; [reflexivity |].
  rewrite !imap_cons. unfold sumZ in *. cbn [foldr].
  specialize (IH (f ∘ S) (g ∘ S) (fun i y Hi => Hle (S i) y Hi)).
  specialize (Hle 0%nat x eq_refl). cbn in *. lia.
Qed.

Lemma sumZ_imap_eq_iff {A} (f g : nat -> A -> Z) (l : list A) :
  (forall i x, l !! i = Some x -> f i x <= g i x) ->
  sumZ (imap f l) = sumZ (imap g l)
  <-> forall i x, l !! i = Some x -> f i x = g i x.
Proof.
  revert f g. induction l as [| x l IH]; intros f g Hle.
  - split; [intros _ i y Hi; discriminate | reflexivity].
  - rewrite !imap_cons. unfold sumZ in *. cbn [foldr].
    pose proof (sumZ_imap_le (f ∘ S) (g ∘ S) l
                  (fun i y Hi => Hle (S i) y Hi)) as Htail.
    pose proof (Hle 0%nat x eq_refl) as Hhead. unfold sumZ in Htail.
    specialize (IH (f ∘ S) (g ∘ S) (fun i y Hi => Hle (S i) y Hi)).
    split.
    + intros Hsum. assert (f 0%nat x = g 0%nat x) as H0 by lia.
      intros [| i] y Hi.
      * injection Hi as <-. exact H0.
      * apply (proj1 IH); [lia | exact Hi].
    + intros Hall. rewrite (Hall 0%nat x eq_refl).
      f_equal. apply (proj2 IH). intros i y Hi. exact (Hall (S i) y Hi).
Qed.

Lemma zip_with_imap_fmap {A B C D} (h : B -> C -> D) (f : nat -> A -> B)
    (g : A -> C) (l : list A) :
  zip_with h (imap f l) (g <$> l) = imap (fun i x => h (f i x) (g x)) l.
Proof.
  revert f. induction l as [| x l IH]; intros f; [reflexivity |].
  rewrite !imap_cons. cbn. f_equal. apply IH.
Qed.

Lemma sumZ_fmap_imap {A} (g : A -> Z) (l : list A) :
  sumZ (g <$> l) = sumZ (imap (fun _ x => g x) l).
Proof. by rewrite <- (imap_const g l). Qed.

(** X16. With points that are not negative, a submission is answered
    'accepted' exactly when every test case that is worth points passed:
    test cases worth 0 points do not matter, and a problem without test
    cases (or with none worth points) is accepted whatever the code does. *)
Theorem X16_accepted_iff_all_scored_tests_pass (env : nat -> Execution)
    (code language : jsstr) (problem : Problem) :
  Forall (fun tc => 0 <= tc_points tc) (p_testCases problem) ->
  statusOf (scoreOf problem (runCode env code language (p_testCases problem)))
    (maxScoreOf problem) = accepted
  <-> forall i testCase,
        p_testCases problem !! i = Some testCase ->
        tc_points testCase <> 0 ->
        tr_passed (runOne code language testCase (env i)) = true.
Proof.
  intros Hpos.
  assert (forall score maxScore,
            statusOf score maxScore = accepted <-> score = maxScore) as Hstatus.
  { intros score maxScore. unfold statusOf. case_bool_decide as Heq.
    - by split.
    - split; [| congruence]. by destruct (0 <? score). }
  rewrite Hstatus, scoreOf_sum, maxScoreOf_sum. unfold runCode.
  change (map tc_points) with (fmap (M := list) tc_points).
  rewrite zip_with_imap_fmap, sumZ_fmap_imap.
  rewrite sumZ_imap_eq_iff.
  - split; intros Hall i testCase Hi.
    + intros Hpoints. specialize (Hall i testCase Hi). unfold earned in Hall.
      destruct (tr_passed (runOne code language testCase (env i)));
        [reflexivity | congruence].
    + unfold earned.
      destruct (decide (tc_points testCase = 0)) as [-> | Hne].
      * by destruct (tr_passed _).
      * by rewrite (Hall i testCase Hi Hne).
  - intros i testCase Hi. unfold earned.
    rewrite Forall_forall in Hpos.
    assert (0 <= tc_points testCase)
      by (apply Hpos, list_elem_of_lookup; eauto).
    destruct (tr_passed _); lia.
Qed.

Lemma X16_accepted_iff_all_scored_tests_pass_witness :
  Forall (fun tc => 0 <= tc_points tc) (p_testCases Samples.lateProblem)
  /\ (statusOf
        (scoreOf Samples.lateProblem
           (runCode (fun _ => MoreSamples.idle) (lit "print(3)") (lit "python")
              (p_testCases Samples.lateProblem)))
        (maxScoreOf Samples.lateProblem) = accepted
      <-> forall i testCase,
            p_testCases Samples.lateProblem !! i = Some testCase ->
            tc_points testCase <> 0 ->
            tr_passed (runOne (lit "print(3)") (lit "python") testCase
                         MoreSamples.idle) = true).
Proof.
  assert (Forall (fun tc => 0 <= tc_points tc) (p_testCases Samples.lateProblem))
    as Hpos by (repeat constructor; simpl; lia).
  split; [exact Hpos |].
  exact (X16_accepted_iff_all_scored_tests_pass (fun _ => MoreSamples.idle)
           (lit "print(3)") (lit "python") Samples.lateProblem Hpos).
Defined.

(** ** submitFinalResults: the duration text *)

Lemma lit_inj (s t : string) : lit s = lit t -> s = t.
Proof.
  unfold lit. intros Heq.
  rewrite <- (String.string_of_list_ascii_of_string s),
    <- (String.string_of_list_ascii_of_string t).
  f_equal. revert Heq.
  generalize (String.list_ascii_of_string s) (String.list_ascii_of_string t).
  induction l as [| a l IH]; intros [| b k] Heq; try discriminate; [reflexivity |].
  injection Heq as Hab Hlk. f_equal; [| by apply IH].
  rewrite <- (Ascii.ascii_N_embedding a), <- (Ascii.ascii_N_embedding b).
  by rewrite Hab.
Qed.

Lemma lit_length (s : string) : length (lit s) = String.length s.
Proof.
  unfold lit. rewrite length_map. induction s as [| a s IH]; simpl; congruence.
Qed.

Lemma pretty_N_go_length (x : N) (s : string) :
  (String.length s <= String.length (pretty_N_go x s))%nat.
Proof.
  revert s. induction (N.lt_wf_0 x) as [x _ IH]. intros s.
  destruct (decide (x = 0%N)) as [-> | Hx].
  - by rewrite pretty_N_go_0.
  - rewrite pretty_N_go_step by lia.
    etrans; [| apply IH; apply N.div_lt; lia]. simpl. lia.
Qed.

(** From 100 on, a number is written with three digits at least. *)
Lemma pretty_three_digits (n : Z) : 100 <= n -> (3 <= length (lit (pretty n)))%nat.
Proof.
  intros Hn. rewrite lit_length.
  destruct n as [| p | p]; try lia.
  change (pretty (Z.pos p)) with (pretty (N.pos p)).
  unfold pretty, pretty_N. rewrite decide_False by discriminate.
  assert (100 <= N.pos p)%N as Hp by lia.
  rewrite pretty_N_go_step by lia.
  rewrite pretty_N_go_step by (apply N.div_str_pos; lia).
  rewrite pretty_N_go_step.
  - etrans; [| apply pretty_N_go_length]. simpl. lia.
  - apply N.div_str_pos. split; [lia |].
    apply N.div_le_lower_bound; lia.
Qed.

(** Below 100, [pad] writes the two decimal digits. *)
Lemma pad_two_digits (n : Z) :
  0 <= n < 100 ->
  pad n = [Z.to_N (48 + n / 10); Z.to_N (48 + n mod 10)].
Proof.
  intros Hn.
  assert (forallb
            (fun k => bool_decide
                        (pad (Z.of_nat k)
                         = [Z.to_N (48 + Z.of_nat k / 10);
                            Z.to_N (48 + Z.of_nat k mod 10)]))
            (seq 0 100) = true) as Hall by (vm_compute; reflexivity).
  rewrite forallb_forall in Hall.
  specialize (Hall (Z.to_nat n)).
  rewrite Z2Nat.id in Hall by lia.
  apply bool_decide_eq_true in Hall; [exact Hall |].
  apply in_seq. lia.
Qed.

Lemma pad_inj (a b : Z) : 0 <= a -> 0 <= b -> pad a = pad b -> a = b.
Proof.
  intros Ha Hb Heq.
  destruct (decide (a < 100)) as [Ha' | Ha'], (decide (b < 100)) as [Hb' | Hb'].
  - rewrite !pad_two_digits in Heq by lia.
    injection Heq as Htens Hunits.
    apply Z2N.inj in Htens; [| apply Z.add_nonneg_nonneg; [lia |];
                                apply Z.div_pos; lia ..].
    apply Z2N.inj in Hunits; [| apply Z.add_nonneg_nonneg; [lia |];
                                 apply Z.mod_pos_bound; lia ..].
    rewrite (Z.div_mod a 10), (Z.div_mod b 10) by lia. lia.
  - apply (f_equal length) in Heq. rewrite pad_two_digits in Heq by lia.
    unfold pad in Heq. rewrite length_app in Heq.
    pose proof (pretty_three_digits b ltac:(lia)). cbn in Heq. lia.
  - apply (f_equal length) in Heq. rewrite (pad_two_digits b) in Heq by lia.
    unfold pad in Heq. rewrite length_app in Heq.
    pose proof (pretty_three_digits a ltac:(lia)). cbn in Heq. lia.
  - unfold pad in Heq.
    pose proof (pretty_three_digits a ltac:(lia)) as Hla.
    pose proof (pretty_three_digits b ltac:(lia)) as Hlb.
    cbv zeta in Heq.
    replace (2 - length (lit (pretty a)))%nat with 0%nat in Heq by lia.
    replace (2 - length (lit (pretty b)))%nat with 0%nat in Heq by lia.
    cbn in Heq. apply lit_inj in Heq. by apply (inj pretty) in Heq.
Qed.

(** X17. The duration text of the final-results answer depends on the
    whole seconds only and determines them: two durations in milliseconds
    get the same text exactly when they have the same number of whole
    seconds, a negative duration counting as 0. *)
Theorem X17_duration_text_identifies_the_seconds (a b : Z) :
  formatMsToHHMMSS a = formatMsToHHMMSS b
  <-> Z.max 0 (a / 1000) = Z.max 0 (b / 1000).
Proof.
  unfold formatMsToHHMMSS. cbv zeta.
  split; [| by intros ->].
  generalize (Z.max 0 (a / 1000)) (Z.max 0 (b / 1000))
    (Z.le_max_l 0 (a / 1000)) (Z.le_max_l 0 (b / 1000)).
  intros ta tb Hta Htb Heq.
  assert (forall t, 0 <= t ->
            0 <= t / 3600 /\ 0 <= t mod 3600 / 60 < 60 /\ 0 <= t mod 60 < 60)
    as Hfields.
  { intros t Ht. split; [apply Z.div_pos; lia |]. split.
    - pose proof (Z.mod_pos_bound t 3600 ltac:(lia)).
      split; [apply Z.div_pos; lia | apply Z.div_lt_upper_bound; lia].
    - apply Z.mod_pos_bound. lia. }
  destruct (Hfields ta Hta) as (Hha & Hma & Hsa).
  destruct (Hfields tb Htb) as (Hhb & Hmb & Hsb).
  assert (forall m s, 0 <= m < 60 -> 0 <= s < 60 ->
            length (lit ":" ++ pad m ++ lit ":" ++ pad s) = 6%nat) as Hsix.
  { intros m s Hm Hs. rewrite !pad_two_digits by lia. reflexivity. }
  apply app_inj_2 in Heq as [Hh Hrest]; [| by rewrite !Hsix].
  apply pad_inj in Hh; [| assumption ..].
  injection Hrest as Hrest.
  apply app_inj_1 in Hrest as [Hm Hs];
    [| by rewrite !pad_two_digits by lia].
  injection Hs as Hs.
  apply pad_inj in Hm; [| lia ..]. apply pad_inj in Hs; [| lia ..].
  assert (forall t, t = 3600 * (t / 3600) + 60 * (t mod 3600 / 60) + t mod 60)
    as Hsplit.
  { intros t. rewrite <- (Z.mod_mod_divide t 3600 60) by (exists 60; reflexivity).
    pose proof (Z.div_mod t 3600 ltac:(lia)).
    pose proof (Z.div_mod (t mod 3600) 60 ltac:(lia)). lia. }
  rewrite (Hsplit ta), (Hsplit tb). lia.
Qed.

(** One hour, two minutes, three seconds and a half. *)
Example duration_text_sample : formatMsToHHMMSS 3723500 = lit "01:02:03".
Proof. vm_compute. reflexivity. Qed.

(** ** submitFinalResults: what is stored *)

Lemma updateProblemResult_totals now this problemId score timeSpent status fa :
  let after := updateProblemResult now this problemId score timeSpent status fa in
  cr_totalScore after = sumZ (map pr_score (cr_problemResults after))
  /\ cr_totalTime after = sumZ (map pr_timeSpent (cr_problemResults after)).
Proof.
  cbv zeta. unfold updateProblemResult.
  destruct (findProblemResult this problemId) as [[i pr] |];
    cbn [calculateTotals with_problemResults cr_totalTime cr_totalScore
         cr_problemResults]; rewrite !foldl_add_map; split; lia.
Qed.

Lemma updateProblemResult_keeps now this problemId score timeSpent status fa :
  let after := updateProblemResult now this problemId score timeSpent status fa in
  cr_userId after = cr_userId this /\ cr_contestId after = cr_contestId this
  /\ cr_penalties after = cr_penalties this
  /\ cr_completedAt after = cr_completedAt this
  /\ cr_isCompleted after = cr_isCompleted this.
Proof.
  cbv zeta. unfold updateProblemResult.
  destruct (findProblemResult this problemId) as [[i pr] |]; repeat split.
Qed.

Lemma applyReports_keeps now this reports :
  let after := applyReports now this reports in
  cr_userId after = cr_userId this /\ cr_contestId after = cr_contestId this
  /\ cr_penalties after = cr_penalties this
  /\ cr_completedAt after = cr_completedAt this
  /\ cr_isCompleted after = cr_isCompleted this.
Proof.
  cbv zeta. revert this.
  induction reports as [| r reports IH]; intros this; [repeat split |].
  cbn [applyReports foldl]. fold (applyReports now (applyReport now this r) reports).
  destruct (IH (applyReport now this r)) as (-> & -> & -> & -> & ->).
  apply updateProblemResult_keeps.
Qed.

Lemma applyReports_totals now this reports :
  reports <> [] ->
  let after := applyReports now this reports in
  cr_totalScore after = sumZ (map pr_score (cr_problemResults after))
  /\ cr_totalTime after = sumZ (map pr_timeSpent (cr_problemResults after)).
Proof.
  intros Hne. cbv zeta.
  destruct reports as [| r reports] using rev_ind; [congruence |].
  unfold applyReports. rewrite foldl_app. cbn [foldl].
  apply updateProblemResult_totals.
Qed.

(** The result that [submitFinalResults] saves, from the one it starts from. *)
Lemma final_result_shape now (req : FinalRequest) (base : ContestResult) :
  let final :=
    applyReports now (markCompleted now req base) (fin_problemResults req) in
  cr_userId final = cr_userId base /\ cr_contestId final = cr_contestId base
  /\ cr_isCompleted final = true
  /\ cr_completedAt final = Some now
  /\ cr_penalties final = fin_penaltyPoints req
  /\ (fin_problemResults req = [] ->
      cr_totalScore final = fin_totalScore req
      /\ cr_totalTime final = parseDurationToMs (fin_totalTime req))
  /\ (fin_problemResults req <> [] ->
      cr_totalScore final = sumZ (map pr_score (cr_problemResults final))
      /\ cr_totalTime final = sumZ (map pr_timeSpent (cr_problemResults final))).
Proof.
  cbv zeta.
  destruct (applyReports_keeps now (markCompleted now req base)
              (fin_problemResults req)) as (-> & -> & -> & -> & ->).
  do 5 (split; [reflexivity |]). split.
  - intros ->. split; reflexivity.
  - intros Hne. by apply applyReports_totals.
Qed.

(** X18. A final-results request of the authenticated user for an existing
    contest, without database errors: the stored result is marked completed
    at the time of the request and takes the penalties of the request. Its
    totals are those of the request only when the request reports no
    problem; as soon as it reports one, the stored totalScore and totalTime
    are the sums over the entries, and the totalScore and totalTime of the
    request are not stored. The answer repeats the totalScore of the
    request and gives the duration text of the stored totalTime. *)
Theorem X18_final_totals_are_recomputed contests now (req : FinalRequest)
    (st : State) (contest : Contest) :
  fin_userId req = fin_authenticated req ->
  contests !! fin_contestId req = Some contest ->
  match st_contestResults st !! (fin_userId req, fin_contestId req) with
  | Some stored =>
      cr_userId stored = fin_userId req /\ cr_contestId stored = fin_contestId req
  | None => True
  end ->
  exists final,
    submitFinalResults (fun _ => None) contests now req st
    = (FinalOk (fin_totalScore req) (fin_penaltyPoints req)
         (formatMsToHHMMSS (cr_totalTime final)) now,
       {| st_contestResults :=
            <[(fin_userId req, fin_contestId req) := final]> (st_contestResults st);
          st_console := st_console st |})
    /\ cr_isCompleted final = true
    /\ cr_completedAt final = Some now
    /\ cr_penalties final = fin_penaltyPoints req
    /\ (fin_problemResults req = [] ->
        cr_totalScore final = fin_totalScore req
        /\ cr_totalTime final = parseDurationToMs (fin_totalTime req))
    /\ (fin_problemResults req <> [] ->
        cr_totalScore final = sumZ (map pr_score (cr_problemResults final))
        /\ cr_totalTime final = sumZ (map pr_timeSpent (cr_problemResults final))).
Proof.
  intros Huser Hcontest Hstored.
  destruct (st_contestResults st !! (fin_userId req, fin_contestId req))
    as [stored |] eqn:Hlookup.
  - destruct Hstored as [Hu Hc].
    destruct (final_result_shape now req stored) as (Hfu & Hfc & Hrest).
    eexists. split; [| exact Hrest].
    unfold submitFinalResults, submitFinalResults_try, bind, attempt,
      writeResult, ret.
    rewrite Huser, bool_decide_eq_true_2 by reflexivity. cbn [negb].
    rewrite <- Huser, Hcontest, Hlookup, Hfu, Hfc, Hu, Hc. reflexivity.
  - destruct (final_result_shape now req
                (blankResult now (fin_userId req) (fin_contestId req) contest))
      as (Hfu & Hfc & Hrest).
    eexists. split; [| exact Hrest].
    unfold submitFinalResults, submitFinalResults_try, bind, attempt,
      writeResult, ret.
    rewrite Huser, bool_decide_eq_true_2 by reflexivity. cbn [negb].
    rewrite <- Huser, Hcontest, Hlookup, Hfu, Hfc.
    cbn [blankResult cr_userId cr_contestId st_contestResults st_console].
    by rewrite insert_insert_eq.
Qed.

Lemma X18_final_totals_are_recomputed_witness :
  fin_problemResults MoreSamples.finalRequest <> []
  /\ exists final,
       submitFinalResults (fun _ => None) Samples.contests 60
         MoreSamples.finalRequest MoreSamples.joinedBothState
       = (FinalOk 999 5 (formatMsToHHMMSS (cr_totalTime final)) 60,
          {| st_contestResults :=
               <[(7%N, 3%N) := final]>
                 (st_contestResults MoreSamples.joinedBothState);
             st_console := [] |})
       /\ cr_isCompleted final = true
       /\ cr_completedAt final = Some 60
       /\ cr_penalties final = 5
       /\ (fin_problemResults MoreSamples.finalRequest = [] ->
           cr_totalScore final = 999
           /\ cr_totalTime final = parseDurationToMs (Some 90))
       /\ (fin_problemResults MoreSamples.finalRequest <> [] ->
           cr_totalScore final = sumZ (map pr_score (cr_problemResults final))
           /\ cr_totalTime final
              = sumZ (map pr_timeSpent (cr_problemResults final))).
Proof.
  split; [discriminate |].
  exact (X18_final_totals_are_recomputed Samples.contests 60
           MoreSamples.finalRequest MoreSamples.joinedBothState Samples.contest
           eq_refl eq_refl (conj eq_refl eq_refl)).
Defined.

(** The stored totals of the sample: 100 points and no time, not the 999
    points and 90 seconds of the request. *)
Example final_totals_sample :
  (st_contestResults
     (snd (submitFinalResults (fun _ => None) Samples.contests 60
             MoreSamples.finalRequest MoreSamples.joinedBothState))
     !! (7%N, 3%N))
  ≫= (fun cr => Some (cr_totalScore cr, cr_totalTime cr))
  = Some (100, 0).
Proof. vm_compute. reflexivity. Qed.

(** *** Entries of other problems are not touched *)

Lemma list_find_insert_other {A} (P : A -> Prop) `{forall x, Decision (P x)}
    (l : list A) (i : nat) (x y : A) :
  l !! i = Some x -> ~ P x -> ~ P y ->
  list_find P (<[i := y]> l) = list_find P l.
Proof.
  intros Hi Hx Hy.
  destruct (list_find P l) as [[j z] |] eqn:Hfind.
  - apply list_find_Some in Hfind as (Hj & Hz & Hbefore).
    assert (j <> i) as Hne by (intros ->; congruence).
    apply list_find_Some. split; [| split].
    + by rewrite list_lookup_insert_ne.
    + exact Hz.
    + intros k w Hk Hlt. destruct (decide (k = i)) as [-> | Hki].
      * rewrite list_lookup_insert_eq in Hk by (eapply lookup_lt_Some; eassumption).
        by injection Hk as <-.
      * rewrite list_lookup_insert_ne in Hk by done. by eapply Hbefore.
  - apply list_find_None in Hfind. apply list_find_None.
    by apply Forall_insert.
Qed.

Lemma list_find_snoc_other {A} (P : A -> Prop) `{forall x, Decision (P x)}
    (l : list A) (y : A) :
  ~ P y -> list_find P (l ++ [y]) = list_find P l.
Proof.
  intros Hy. destruct (list_find P l) as [[j z] |] eqn:Hfind.
  - by apply list_find_app_l.
  - apply list_find_None in Hfind. apply list_find_None.
    apply Forall_app. split; [exact Hfind |]. by constructor.
Qed.

(** An update for one problem does not change what is found for another. *)
Lemma find_after_update_other now this problemId other score timeSpent status fa :
  other <> problemId ->
  findProblemResult
    (updateProblemResult now this problemId score timeSpent status fa) other
  = findProblemResult this other.
Proof.
  intros Hne. unfold findProblemResult at 1.
  destruct (findProblemResult this problemId) as [[i pr] |] eqn:Hfind.
  - rewrite (updateProblemResult_existing _ _ _ _ _ _ _ _ _ Hfind).
    unfold findProblemResult in Hfind.
    apply list_find_Some in Hfind as (Hi & Hid & _).
    apply (list_find_insert_other _ _ _ _ _ Hi); cbn; congruence.
  - rewrite (updateProblemResult_missing _ _ _ _ _ _ _ Hfind).
    apply list_find_snoc_other. cbn. congruence.
Qed.

(** X19. Final results never date an accept and never add time: for every
    problem, the entry found after the reports are applied has the
    firstAcceptedAt and the timeSpent of the entry found before; an entry
    that the reports create has no firstAcceptedAt and no time, also when
    its status is 'accepted'. An entry that existed stays at its place and
    keeps its maxScore. *)
Theorem X19_final_reports_keep_dates_and_times (now : Date)
    (this : ContestResult) (reports : list FinalReport) (problemId : ObjectId) :
  let before := findProblemResult this problemId in
  let after := findProblemResult (applyReports now this reports) problemId in
  after ≫= (fun found => pr_firstAcceptedAt (snd found))
  = before ≫= (fun found => pr_firstAcceptedAt (snd found))
  /\ default 0 ((fun found => pr_timeSpent (snd found)) <$> after)
     = default 0 ((fun found => pr_timeSpent (snd found)) <$> before)
  /\ (forall i entry,
        before = Some (i, entry) ->
        exists entry',
          after = Some (i, entry') /\ pr_maxScore entry' = pr_maxScore entry
          /\ pr_score entry <= pr_score entry').
Proof.
  cbv zeta. revert this.
  induction reports as [| r reports IH]; intros this.
  - split; [reflexivity |]. split; [reflexivity |].
    intros i entry Hbefore. exists entry.
    split; [exact Hbefore |]. split; [reflexivity | lia].
  - cbn [applyReports foldl].
    fold (applyReports now (applyReport now this r) reports).
    destruct (IH (applyReport now this r)) as (Hfirst & Htime & Hkept).
    rewrite Hfirst, Htime. unfold applyReport in *.
    destruct (decide (problemId = fr_problemId r)) as [-> | Hne].
    + destruct (findProblemResult this (fr_problemId r)) as [[i entry] |] eqn:Hfind.
      * pose proof (find_after_update now this (fr_problemId r) i entry
                      (fr_score r) 0
                      (if 0 <? fr_score r then accepted else attempted) false
                      Hfind) as Hstep.
        rewrite Hstep. cbn.
        split; [reflexivity |]. split; [lia |].
        intros i0 entry0 [= <- <-].
        destruct (Hkept _ _ Hstep) as (entry' & Hafter & Hmax & Hscore).
        exists entry'. split; [exact Hafter |].
        cbn [mergeInto pr_maxScore pr_score] in Hmax, Hscore.
        split; [exact Hmax | lia].
      * rewrite (find_after_missing now this (fr_problemId r) (fr_score r) 0
                   (if 0 <? fr_score r then accepted else attempted) false Hfind).
        cbn. split; [reflexivity |]. split; [reflexivity |]. discriminate.
    + rewrite (find_after_update_other now this (fr_problemId r) problemId
                 (fr_score r) 0
                 (if 0 <? fr_score r then accepted else attempted) false Hne)
        in *.
      split; [reflexivity |]. split; [reflexivity |]. exact Hkept.
Qed.

(** ** The total of getContests and the maxScores of joinContest *)



(** Where the condition fails the two differ: the problem without test
    cases, listed in a contest for 70 points, counts 70 in the listing and
    100 after joining. *)
Example listed_total_differs :
  totalPossibleScore Samples.problems
    [ {| cp_problemId := 4%N; cp_order := 1; cp_points := 70 |} ] = 70
  /\ sumZ (map pr_maxScore
             (cr_problemResults
                (newContestResult Samples.problems 1 7%N 3%N
                   [ {| cp_problemId := 4%N; cp_order := 1; cp_points := 70 |} ])))
     = 100.
Proof. split; reflexivity. Qed.
